(** * wav2multi-lib: the companding codecs, the encoder registry and the
      WAV validation, embedded from the Go sources.

    Samples are Go [int16] values, bytes are Go [byte] values; both are kept
    as [Z] with the wrap-around of the fixed-width type written out.  Go
    [error] values are an inductive type whose [errors_Is] follows the
    [Unwrap] chain, [io.Writer] sinks are threaded as explicit state. *)

From Stdlib Require Import String ZArith List Bool Lia QArith.
From Stdlib Require Import Zify ZifyNat DecimalString.
Import ListNotations.
Local Open Scope string_scope.
Local Open Scope list_scope.
Local Open Scope Z_scope.

(** ** Go's fixed-width integers *)

Module Go.

(** Conversion to [int16]: two's complement wrap-around. *)
Definition int16 (z : Z) : Z := (z + 32768) mod 65536 - 32768.

(** Conversion to [byte] (uint8). *)
Definition byte (z : Z) : Z := z mod 256.

(** Unary [^] on a [byte]: every one of the 8 bits is flipped. *)
Definition not8 (b : Z) : Z := Z.lxor b 255.

Definition is_int16 (z : Z) : Prop := -32768 <= z <= 32767.
Definition is_byte (z : Z) : Prop := 0 <= z <= 255.

Definition is_int16b (z : Z) : bool := (-32768 <=? z) && (z <=? 32767).

(** [copy(dst, src)]: overwrites the first [min (len dst) (len src)]
    cells of [dst]. *)
Definition copy {A} (dst src : list A) : list A :=
  firstn (length dst) src ++ skipn (length src) dst.

End Go.

(** ** types.go: formats and errors *)

Definition AudioFormat := string.

Definition FormatG729 : AudioFormat := "g729".
Definition FormatULaw : AudioFormat := "ulaw".
Definition FormatALaw : AudioFormat := "alaw".
Definition FormatSLIN : AudioFormat := "slin".

(** Go error values.  The five package-level sentinels are the values made
    by [errors.New] in the [var] block; [Errorf] is a [fmt.Errorf] without
    [%w] (a fresh value that wraps nothing), [Wrapf] a [fmt.Errorf] whose
    format ends in [: %w]; [EOF] is [io.EOF] and [External] any error handed
    back by the operating system or by a library. *)
Inductive error : Type :=
| ErrInvalidFormat
| ErrUnsupportedFormat
| ErrInvalidInput
| ErrInvalidOutput
| ErrCodecNotAvailable
| EOF
| External (msg : string)
| Errorf (msg : string)
| Wrapf (msg : string) (cause : error).

(** [err == target] on interface values: sentinels are equal to themselves;
    a value freshly allocated by [fmt.Errorf] is equal to no sentinel. *)
Definition same_error (err target : error) : bool :=
  match err, target with
  | ErrInvalidFormat, ErrInvalidFormat
  | ErrUnsupportedFormat, ErrUnsupportedFormat
  | ErrInvalidInput, ErrInvalidInput
  | ErrInvalidOutput, ErrInvalidOutput
  | ErrCodecNotAvailable, ErrCodecNotAvailable
  | EOF, EOF => true
  | External a, External b => String.eqb a b
  | _, _ => false
  end.

(** [errors.Is]: compare, then follow [Unwrap]. *)
Fixpoint errors_Is (err target : error) : bool :=
  same_error err target ||
  match err with
  | Wrapf _ cause => errors_Is cause target
  | _ => false
  end.

(** [err.Error()]. *)
Fixpoint Error (err : error) : string :=
  match err with
  | ErrInvalidFormat => "invalid audio format"
  | ErrUnsupportedFormat => "unsupported format"
  | ErrInvalidInput => "invalid input file"
  | ErrInvalidOutput => "invalid output path"
  | ErrCodecNotAvailable => "codec not available"
  | EOF => "EOF"
  | External msg => msg
  | Errorf msg => msg
  | Wrapf msg cause => String.append msg (String.append ": " (Error cause))
  end.

Definition IsValidFormat (format : AudioFormat) : bool :=
  String.eqb format FormatG729 || String.eqb format FormatULaw ||
  String.eqb format FormatALaw || String.eqb format FormatSLIN.

Definition GetSupportedFormats : list AudioFormat :=
  [FormatG729; FormatULaw; FormatALaw; FormatSLIN].

(** [FileInfo]; the [int] fields are kept as [Z].  The [float64] field
    [Duration] is kept as the exact quotient, without the rounding of the
    floating-point division; no statement below is about its value. *)
Record FileInfo : Type := {
  Path : string;
  Type_ : string;
  BitDepth : Z;
  SampleRate : Z;
  Channels : Z;
  TotalSamples : Z;
  Duration : Q;
  Size : Z
}.

(** ** io.Writer *)

(** A sink is a state [W]; [Write] returns the next state and the error of
    the call (the byte count is dropped by every caller in this package). *)
Class io_Writer (W : Type) : Type :=
  Write : W -> list Z -> W * option error.

(** [bytes.Buffer]: every write is appended and none fails. *)
Definition Buffer : Type := list Z.

#[export] Instance Buffer_Writer : io_Writer Buffer :=
  fun buf p => (buf ++ p, None).

(** A sink with room for [room] more bytes; a write that does not fit
    stores what fits and fails. *)
Record Limited : Type := { stored : list Z; room : nat }.

#[export] Instance Limited_Writer : io_Writer Limited :=
  fun w p =>
    if (length p <=? room w)%nat
    then ({| stored := stored w ++ p; room := room w - length p |}, None)
    else ({| stored := stored w ++ firstn (room w) p; room := 0 |},
          Some (External "short write")).

(** ** codecs.go: the companding transforms *)

(** The segment search [for temp > 0 { segment++; temp >>= 1 }]; the pair
    returned is the final [(segment, temp)]. *)
Fixpoint segment_loop (fuel : nat) (segment temp : Z) : Z * Z :=
  match fuel with
  | O => (segment, temp)
  | S fuel' =>
      if 0 <? temp
      then segment_loop fuel' (segment + 1) (Go.int16 (Z.shiftr temp 1))
      else (segment, temp)
  end.

(** An [int16] is shifted to zero in at most 15 steps. *)
Definition segment_fuel : nat := 16.

Definition pcmToULaw (pcm : Z) : Z :=
  let sign := pcm <? 0 in
  let pcm := if sign then Go.int16 (- pcm) else pcm in
  let pcm := Go.int16 (pcm + 33) in
  let segment := 0 in
  let temp := Go.int16 (Z.shiftr pcm 7) in
  let segment := fst (segment_loop segment_fuel segment temp) in
  let segment := if 7 <? segment then 7 else segment in
  let quantization := Z.land (Go.int16 (Z.shiftr pcm (segment + 3))) 15 in
  let ulaw := Z.lor (Go.byte (Z.shiftl segment 4)) (Go.byte quantization) in
  let ulaw := if sign then Z.lor ulaw 128 else ulaw in
  Go.not8 ulaw.

Definition pcmToALaw (pcm : Z) : Z :=
  let sign := pcm <? 0 in
  let pcm := if sign then Go.int16 (- pcm) else pcm in
  let pcm := Go.int16 (pcm + 33) in
  let segment := 0 in
  let temp := Go.int16 (Z.shiftr pcm 7) in
  let segment := fst (segment_loop segment_fuel segment temp) in
  let segment := if 7 <? segment then 7 else segment in
  let quantization := Z.land (Go.int16 (Z.shiftr pcm (segment + 3))) 15 in
  let alaw := Z.lor (Go.byte (Z.shiftl segment 4)) (Go.byte quantization) in
  let alaw := if sign then Z.lor alaw 128 else alaw in
  let alaw := Z.lxor alaw 85 in
  alaw.

(** ** codecs.go: the stateless encoders *)

Section Encoders.
Context {W : Type} `{io_Writer W}.

Fixpoint ULawEncoder_Encode (samples : list Z) (writer : W)
  : W * option error :=
  match samples with
  | [] => (writer, None)
  | sample :: rest =>
      let ulawByte := pcmToULaw sample in
      match Write writer [ulawByte] with
      | (writer', Some err) => (writer', Some err)
      | (writer', None) => ULawEncoder_Encode rest writer'
      end
  end.

Fixpoint ALawEncoder_Encode (samples : list Z) (writer : W)
  : W * option error :=
  match samples with
  | [] => (writer, None)
  | sample :: rest =>
      let alawByte := pcmToALaw sample in
      match Write writer [alawByte] with
      | (writer', Some err) => (writer', Some err)
      | (writer', None) => ALawEncoder_Encode rest writer'
      end
  end.

Fixpoint SLINEncoder_Encode (samples : list Z) (writer : W)
  : W * option error :=
  match samples with
  | [] => (writer, None)
  | sample :: rest =>
      let bytes :=
        [ Go.byte (Z.land sample 255);
          Go.byte (Z.land (Go.int16 (Z.shiftr sample 8)) 255) ] in
      match Write writer bytes with
      | (writer', Some err) => (writer', Some err)
      | (writer', None) => SLINEncoder_Encode rest writer'
      end
  end.

End Encoders.

(** ** g729_codec.go / g729_codec_nocgo.go: the G.729 adapter *)

(** How a Go call ends: it returns its [error] result (nil or not), or it
    panics. *)
Inductive outcome : Type :=
| Returned (err : option error)
| Panicked.

(** The file built when cgo is off. *)
Module G729_nocgo.

Inductive G729EncoderNoCGO : Type := mkG729EncoderNoCGO.

Definition unavailable : error :=
  Errorf "G.729 encoding requires CGO and libbcg729 library".

Definition NewG729Encoder : option G729EncoderNoCGO * option error :=
  (None, Some unavailable).

Definition Encode {W : Type} (e : G729EncoderNoCGO) (samples : list Z)
  (writer : W) : W * option error :=
  (writer, Some unavailable).

Definition GetFormat (e : G729EncoderNoCGO) : AudioFormat := FormatG729.
Definition GetBitrate (e : G729EncoderNoCGO) : Q := 8%Q.

End G729_nocgo.

(** The file built when cgo is on.  The native library is a parameter: a
    context type and the two C entry points the encoder calls. *)
Module G729_cgo.
Section Native.
Context {Ctx : Type}.

(** [initBcg729EncoderChannel(enableVAD)]: a context, or NULL. *)
Variable initBcg729EncoderChannel : Z -> option Ctx.

(** [bcg729Encoder(ctx, frame, output, &bitStreamLength)]: the context
    after the call, the bytes stored into [output], and the length
    reported. *)
Variable bcg729Encoder : Ctx -> list Z -> Ctx * list Z * Z.

Record G729Encoder : Type := { encoder : option Ctx }.

Definition NewG729Encoder : option G729Encoder * option error :=
  match initBcg729EncoderChannel 0 with
  | None => (None, Some (Errorf "failed to initialize G.729 encoder"))
  | Some encoder => (Some {| encoder := Some encoder |}, None)
  end.

Definition frameSize : nat := 80.

(** What one [Encode] call did: the frames handed to the native encoder
    in order, the receiver and the sink afterwards, and how it ended. *)
Record run (W : Type) : Type := {
  submitted : list (list Z);
  self : G729Encoder;
  sink : W;
  result : outcome
}.
Arguments submitted {W}.
Arguments self {W}.
Arguments sink {W}.
Arguments result {W}.

Context {W : Type} `{io_Writer W}.

(** [for i := 0; i < len(samples); i += frameSize { ... }], from index
    [i] on; [None] when [fuel] iterations were not enough. *)
Fixpoint encode_frames (fuel : nat) (i : nat) (samples : list Z)
  (ctx : Ctx) (writer : W) (sent : list (list Z)) : option (run W) :=
  match fuel with
  | O => None
  | S fuel' =>
      if (i <? length samples)%nat then
        let frame := Go.copy (repeat 0 frameSize) (skipn i samples) in
        let '(ctx', stored, bitStreamLength) := bcg729Encoder ctx frame in
        let output := Go.copy (repeat 0 10%nat) stored in
        let sent' := sent ++ [frame] in
        if 0 <? bitStreamLength then
          if bitStreamLength <=? 10 then
            let encodedData := firstn (Z.to_nat bitStreamLength) output in
            match Write writer encodedData with
            | (writer', Some err) =>
                Some {| submitted := sent';
                        self := {| encoder := Some ctx' |};
                        sink := writer';
                        result := Returned (Some
                          (Wrapf "failed to write G.729 data" err)) |}
            | (writer', None) =>
                encode_frames fuel' (i + frameSize)%nat samples ctx'
                  writer' sent'
            end
          else
            Some {| submitted := sent';
                    self := {| encoder := Some ctx' |};
                    sink := writer;
                    result := Panicked |}
        else
          encode_frames fuel' (i + frameSize)%nat samples ctx' writer sent'
      else
        Some {| submitted := sent;
                self := {| encoder := Some ctx |};
                sink := writer;
                result := Returned None |}
  end.

Definition Encode (e : G729Encoder) (samples : list Z) (writer : W)
  : option (run W) :=
  match encoder e with
  | None =>
      Some {| submitted := [];
              self := e;
              sink := writer;
              result := Returned (Some (Errorf "encoder not initialized")) |}
  | Some ctx => encode_frames (S (length samples)) 0 samples ctx writer []
  end.

Definition GetFormat (e : G729Encoder) : AudioFormat := FormatG729.
Definition GetBitrate (e : G729Encoder) : Q := 8%Q.

End Native.
Arguments G729Encoder Ctx : clear implicits.
Arguments run Ctx W : clear implicits.
Arguments submitted {Ctx W}.
Arguments self {Ctx W}.
Arguments sink {Ctx W}.
Arguments result {Ctx W}.
End G729_cgo.

(** ** codecs.go: the registry *)

(** A [CodecEncoder] interface value: one of the concrete encoders. *)
Inductive CodecEncoder (Ctx : Type) : Type :=
| ULawEncoder
| ALawEncoder
| SLINEncoder
| G729Encoder (e : G729_cgo.G729Encoder Ctx)
| G729EncoderNoCGO (e : G729_nocgo.G729EncoderNoCGO).
Arguments ULawEncoder {Ctx}.
Arguments ALawEncoder {Ctx}.
Arguments SLINEncoder {Ctx}.
Arguments G729Encoder {Ctx}.
Arguments G729EncoderNoCGO {Ctx}.

Definition GetFormat {Ctx} (e : CodecEncoder Ctx) : AudioFormat :=
  match e with
  | ULawEncoder => FormatULaw
  | ALawEncoder => FormatALaw
  | SLINEncoder => FormatSLIN
  | G729Encoder e => G729_cgo.GetFormat e
  | G729EncoderNoCGO e => G729_nocgo.GetFormat e
  end.

Definition GetBitrate {Ctx} (e : CodecEncoder Ctx) : Q :=
  match e with
  | ULawEncoder => 64%Q
  | ALawEncoder => 64%Q
  | SLINEncoder => 128%Q
  | G729Encoder e => G729_cgo.GetBitrate e
  | G729EncoderNoCGO e => G729_nocgo.GetBitrate e
  end.

(** Which of the two G.729 files the build tag selects; with cgo, the
    linked library's initialiser comes along. *)
Inductive build (Ctx : Type) : Type :=
| cgo (initBcg729EncoderChannel : Z -> option Ctx)
| nocgo.
Arguments cgo {Ctx}.
Arguments nocgo {Ctx}.

(** [NewG729Encoder] as linked into the build, with its result converted
    to the interface type. *)
Definition NewG729Encoder {Ctx} (b : build Ctx)
  : option (CodecEncoder Ctx) * option error :=
  match b with
  | cgo init =>
      match G729_cgo.NewG729Encoder init with
      | (Some e, err) => (Some (G729Encoder e), err)
      | (None, err) => (None, err)
      end
  | nocgo =>
      match G729_nocgo.NewG729Encoder with
      | (Some e, err) => (Some (G729EncoderNoCGO e), err)
      | (None, err) => (None, err)
      end
  end.

Definition GetEncoder {Ctx} (b : build Ctx) (format : AudioFormat)
  : option (CodecEncoder Ctx) * option error :=
  if String.eqb format FormatG729 then
    match NewG729Encoder b with
    | (_, Some err) => (None, Some (Wrapf "G.729 encoder not available" err))
    | (encoder, None) => (encoder, None)
    end
  else if String.eqb format FormatULaw then (Some ULawEncoder, None)
  else if String.eqb format FormatALaw then (Some ALawEncoder, None)
  else if String.eqb format FormatSLIN then (Some SLINEncoder, None)
  else (None, Some ErrUnsupportedFormat).

(** ** codecs.go: reading the WAV input *)

(** The result of a call into the operating system or the WAV library. *)
Inductive result (A : Type) : Type :=
| Ok (a : A)
| Fail (err : error).
Arguments Ok {A}.
Arguments Fail {A}.

(** [youpywav.WavFormat]. *)
Record WavFormat : Type := {
  wf_AudioFormat : Z;
  wf_NumChannels : Z;
  wf_SampleRate : Z;
  wf_ByteRate : Z;
  wf_BlockAlign : Z;
  wf_BitsPerSample : Z
}.

(** [youpywav.Sample]: [Values [2]int]. *)
Record Sample : Type := { Values : Z * Z }.

(** An open [*os.File] as the WAV library sees it: what [Format()] answers,
    the batches the successive [ReadSamples(1024)] calls deliver, and the
    error that ends them ([io.EOF] at the end of the data). *)
Record File : Type := {
  Format : result WavFormat;
  Batches : list (list Sample);
  Last : error
}.

(** An [io.Reader] interface value: an [*os.File], or a value of another
    dynamic type (named by [type_name]) that would yield [stream]. *)
Inductive io_Reader : Type :=
| os_File (file : File)
| other_Reader (type_name : string) (stream : list Z).

(** The [for { ReadSamples ... }] loop with its accumulator [samples]. *)
Fixpoint read_batches (batches : list (list Sample)) (last : error)
  (samples : list Z) : list Z * option error :=
  match batches with
  | [] => if same_error last EOF then (samples, None) else ([], Some last)
  | sampleBatch :: more =>
      read_batches more last
        (samples ++ map (fun s => Go.int16 (fst (Values s))) sampleBatch)
  end.

Definition ReadWAVSamples (reader : io_Reader)
  : list Z * option FileInfo * option error :=
  match reader with
  | other_Reader _ _ =>
      ([], None, Some (Errorf "reader must be *os.File for youpy/go-wav"))
  | os_File file =>
      match Format file with
      | Fail err => ([], None, Some err)
      | Ok format =>
          if negb (wf_AudioFormat format =? 1) then
            ([], None, Some ErrInvalidFormat)
          else if negb (wf_NumChannels format =? 1) then
            ([], None, Some ErrInvalidFormat)
          else if negb (wf_SampleRate format =? 8000) then
            ([], None, Some ErrInvalidFormat)
          else if negb (wf_BitsPerSample format =? 16) then
            ([], None, Some ErrInvalidFormat)
          else
            match read_batches (Batches file) (Last file) [] with
            | (_, Some err) => ([], None, Some err)
            | (samples, None) =>
                let fileInfo :=
                  {| Path := "";
                     Type_ := "WAVE";
                     BitDepth := wf_BitsPerSample format;
                     SampleRate := wf_SampleRate format;
                     Channels := wf_NumChannels format;
                     TotalSamples := Z.of_nat (length samples);
                     Duration := Z.of_nat (length samples)
                                 # Z.to_pos (wf_SampleRate format);
                     Size := 0 |} in
                (samples, Some fileInfo, None)
            end
      end
  end.

(** ** transcoder.go: input validation *)

Record DefaultTranscoder : Type := { verbose : bool }.

Section FileSystem.

(** [os.Stat(path)], reduced to the size it reports, and [os.Open]. *)
Variable os_Stat : string -> result Z.
Variable os_Open : string -> result File.

Definition ValidateInput (t : DefaultTranscoder) (inputPath : string)
  : option FileInfo * option error :=
  match os_Stat inputPath with
  | Fail err => (None, Some (Wrapf "file not found" err))
  | Ok stat =>
      match os_Open inputPath with
      | Fail err => (None, Some (Wrapf "failed to open file" err))
      | Ok file =>
          match ReadWAVSamples (os_File file) with
          | (_, _, Some err) => (None, Some (Wrapf "invalid WAV file" err))
          | (_, None, None) =>
              (* not reached: a nil error comes with a FileInfo *)
              (None, None)
          | (_, Some fileInfo, None) =>
              (Some {| Path := inputPath;
                       Type_ := Type_ fileInfo;
                       BitDepth := BitDepth fileInfo;
                       SampleRate := SampleRate fileInfo;
                       Channels := Channels fileInfo;
                       TotalSamples := TotalSamples fileInfo;
                       Duration := Duration fileInfo;
                       Size := stat |}, None)
          end
      end
  end.

End FileSystem.

(** ** Reading SLIN output back *)

(** The reading of a SLIN stream that the format's layout prescribes:
    consecutive byte pairs, low byte first, each pair one signed 16-bit
    sample.  A trailing odd byte carries no sample. *)
Fixpoint slin_decode (bytes : list Z) : list Z :=
  match bytes with
  | lo :: hi :: rest => Go.int16 (lo + 256 * hi) :: slin_decode rest
  | _ => []
  end.

(** ** Sinks that take everything *)

(** [written] reads back what a sink holds; the sink accepts all writes
    when no [Write] fails and each one appends its bytes. *)
Definition accepts_all {W : Type} `{io_Writer W} (written : W -> list Z)
  : Prop :=
  forall (w : W) (p : list Z),
    snd (Write w p) = None /\ written (fst (Write w p)) = written w ++ p.

(** The two bytes [SLINEncoder.Encode] builds for one sample. *)
Definition slin_bytes (sample : Z) : list Z :=
  [ Go.byte (Z.land sample 255);
    Go.byte (Z.land (Go.int16 (Z.shiftr sample 8)) 255) ].

(** ** G.729 frames *)

(** Zero samples needed to fill the last frame of [m] samples. *)
Definition padding (m : nat) : nat := ((80 - m mod 80) mod 80)%nat.

(** ** g729_codec.go: release and decoding *)

(** An [io.Reader] over bytes: [Read r n] is one [Read] call on a buffer
    of [n] bytes; it yields the reader afterwards, the bytes put into the
    buffer and the error of the call. *)
Class byte_Reader (R : Type) : Type :=
  Read : R -> nat -> R * (list Z * option error).

(** [bytes.Reader]: the bytes not yet read; a call delivers as many as
    fit, and [io.EOF] once none is left. *)
Definition bytes_Reader : Type := list Z.

#[export] Instance bytes_Reader_Read : byte_Reader bytes_Reader :=
  fun data n =>
    match data with
    | [] => ([], ([], Some EOF))
    | _ => (skipn n data, (firstn n data, None))
    end.

(** How the host lays out an [int16] in memory. *)
Inductive byte_order : Type := little_endian | big_endian.

Definition int16_memory (order : byte_order) (sample : Z) : list Z :=
  match order with
  | little_endian => slin_bytes sample
  | big_endian => rev (slin_bytes sample)
  end.

Module G729_native.
Section Native.
Context {Ctx DCtx : Type}.

(** [initBcg729DecoderChannel()]: a context, or NULL. *)
Variable initBcg729DecoderChannel : option DCtx.

(** [bcg729Decoder(ctx, bitStream, 10, 0, 0, 0, output)]: the context
    after the call and the samples stored into [output]. *)
Variable bcg729Decoder : DCtx -> list Z -> DCtx * list Z.

Variable order : byte_order.

(** [G729Encoder.Close]: the receiver afterwards and the contexts handed
    to [closeBcg729EncoderChannel]. *)
Definition Close (e : G729_cgo.G729Encoder Ctx)
  : G729_cgo.G729Encoder Ctx * list Ctx :=
  match G729_cgo.encoder e with
  | Some encoder => ({| G729_cgo.encoder := None |}, [encoder])
  | None => (e, [])
  end.

Record G729Decoder : Type := { decoder : option DCtx }.

Definition NewG729Decoder : option G729Decoder * option error :=
  match initBcg729DecoderChannel with
  | None => (None, Some (Errorf "failed to initialize G.729 decoder"))
  | Some decoder => (Some {| decoder := Some decoder |}, None)
  end.

(** [G729Decoder.Close], as [Close] above. *)
Definition Decoder_Close (d : G729Decoder) : G729Decoder * list DCtx :=
  match decoder d with
  | Some decoder => ({| decoder := None |}, [decoder])
  | None => (d, [])
  end.

(** What one [Decode] call did: the frames handed to the native decoder
    in order, the receiver, the reader and the sink afterwards, and how
    it ended. *)
Record decoding (R W : Type) : Type := {
  fed : list (list Z);
  d_self : G729Decoder;
  source : R;
  d_sink : W;
  d_result : outcome
}.
Arguments fed {R W}.
Arguments d_self {R W}.
Arguments source {R W}.
Arguments d_sink {R W}.
Arguments d_result {R W}.

Context {R W : Type} `{byte_Reader R} `{io_Writer W}.

(** The [for { ... }] loop of [Decode] with its 10-byte [buffer]; [None]
    when [fuel] reads were not enough to end it. *)
Fixpoint decode_frames (fuel : nat) (ctx : DCtx) (reader : R) (writer : W)
  (buffer : list Z) (given : list (list Z)) : option (decoding R W) :=
  match fuel with
  | O => None
  | S fuel' =>
      let '(reader', (data, err)) := Read reader (length buffer) in
      let n := length data in
      let buffer' := Go.copy buffer data in
      match err with
      | Some err =>
          if same_error err EOF then
            Some {| fed := given; d_self := {| decoder := Some ctx |};
                    source := reader'; d_sink := writer;
                    d_result := Returned None |}
          else
            Some {| fed := given; d_self := {| decoder := Some ctx |};
                    source := reader'; d_sink := writer;
                    d_result := Returned (Some
                      (Wrapf "failed to read G.729 data" err)) |}
      | None =>
          if negb (n =? 10)%nat then
            Some {| fed := given; d_self := {| decoder := Some ctx |};
                    source := reader'; d_sink := writer;
                    d_result := Returned (Some (Errorf (String.append
                      "incomplete G.729 frame: expected 10 bytes, got "
                      (NilEmpty.string_of_uint (Nat.to_uint n))))) |}
          else
            let '(ctx', stored) := bcg729Decoder ctx buffer' in
            let output := Go.copy (repeat 0 80%nat) stored in
            let decodedData := flat_map (int16_memory order) output in
            match Write writer decodedData with
            | (writer', Some err) =>
                Some {| fed := given ++ [buffer'];
                        d_self := {| decoder := Some ctx' |};
                        source := reader'; d_sink := writer';
                        d_result := Returned (Some
                          (Wrapf "failed to write PCM data" err)) |}
            | (writer', None) =>
                decode_frames fuel' ctx' reader' writer' buffer'
                  (given ++ [buffer'])
            end
      end
  end.

(** [Decode]; the loop has no bound of its own, so the number of reads
    allowed is a parameter. *)
Definition Decode (fuel : nat) (d : G729Decoder) (reader : R) (writer : W)
  : option (decoding R W) :=
  match decoder d with
  | None =>
      Some {| fed := []; d_self := d; source := reader; d_sink := writer;
              d_result :=
                Returned (Some (Errorf "decoder not initialized")) |}
  | Some ctx => decode_frames fuel ctx reader writer (repeat 0 10%nat) []
  end.

End Native.
Arguments G729Decoder DCtx : clear implicits.
Arguments decoding DCtx R W : clear implicits.
Arguments fed {DCtx R W}.
Arguments d_self {DCtx R W}.
Arguments source {DCtx R W}.
Arguments d_sink {DCtx R W}.
Arguments d_result {DCtx R W}.
End G729_native.

(** ** transcoder.go: the entry points *)

Record TranscoderConfig : Type := {
  InputPath : string;
  OutputPath : string;
  Format_ : AudioFormat
}.

Record ProcessingStats : Type := {
  ProcessingTimeMs : Z;
  CompressionRatio : Q;
  BitrateKbps : Q;
  FramesProcessed : Z
}.

Record TranscoderResult : Type := {
  InputFile : FileInfo;
  OutputFile : FileInfo;
  Stats : ProcessingStats;
  Error_ : option error
}.

(** The zero value of [FileInfo]. *)
Definition FileInfo_zero : FileInfo :=
  {| Path := ""; Type_ := ""; BitDepth := 0; SampleRate := 0; Channels := 0;
     TotalSamples := 0; Duration := 0%Q; Size := 0 |}.

(** An argument of [fmt.Printf]. *)
Inductive arg : Type :=
| a_string (s : string)
| a_int (z : Z)
| a_float (q : Q).

(** A call that returns [a], or panics. *)
Inductive call (A : Type) : Type :=
| Done (a : A)
| Panic.
Arguments Done {A}.
Arguments Panic {A}.

(** The operating system under the transcoder.  [World] is its state:
    [os_Stat] (reduced to the size reported) and [os_Open] (the file as
    the WAV library will see it) look at it; [os_Create], writing to and
    closing the file created, and printing change it.  Opening, reading
    and closing an input file leave the state as it is. *)
Class OS (World Handle : Type) : Type := {
  os_Stat : World -> string -> result Z;
  os_Open : World -> string -> result File;
  os_Create : World -> string -> World * result Handle;
  file_Write : World -> Handle -> list Z -> World * option error;
  file_Close : World -> Handle -> World;
  Printf : World -> string -> list arg -> World
}.

(** The file returned by [os.Create], as an [io.Writer]. *)
#[export] Instance created_Writer {World Handle : Type} `{OS World Handle}
  : io_Writer (World * Handle) :=
  fun wh p =>
    let '(w', err) := file_Write (fst wh) (snd wh) p in ((w', snd wh), err).

(** [encoder.Encode(samples, writer)] on an interface value: the encoder
    and the sink afterwards and how the call ended. *)
Definition CodecEncoder_Encode {Ctx W : Type} `{io_Writer W}
  (bcg729Encoder : Ctx -> list Z -> Ctx * list Z * Z)
  (e : CodecEncoder Ctx) (samples : list Z) (writer : W)
  : option (CodecEncoder Ctx * W * outcome) :=
  match e with
  | ULawEncoder =>
      let '(writer', err) := ULawEncoder_Encode samples writer in
      Some (e, writer', Returned err)
  | ALawEncoder =>
      let '(writer', err) := ALawEncoder_Encode samples writer in
      Some (e, writer', Returned err)
  | SLINEncoder =>
      let '(writer', err) := SLINEncoder_Encode samples writer in
      Some (e, writer', Returned err)
  | G729Encoder g =>
      match G729_cgo.Encode bcg729Encoder g samples writer with
      | Some r =>
          Some (G729Encoder (G729_cgo.self r), G729_cgo.sink r,
                G729_cgo.result r)
      | None => None
      end
  | G729EncoderNoCGO g =>
      let '(writer', err) := G729_nocgo.Encode g samples writer in
      Some (e, writer', Returned err)
  end.

Section Transcoder.
Context {World Handle Ctx : Type} `{OS World Handle}.
Variable b : build Ctx.
Variable bcg729Encoder : Ctx -> list Z -> Ctx * list Z * Z.

(** What [time.Since(startTime)] answers when the call gets to it, in
    nanoseconds. *)
Variable time_Since : Z.

Definition logResult (t : DefaultTranscoder) (w : World)
  (result : TranscoderResult) : World :=
  let w := Printf w "=== TRANSCODING RESULT ===\n" [] in
  let w := Printf w "Input:  %s (%d bytes, %.2f seconds)\n"
             [a_string (Path (InputFile result));
              a_int (Size (InputFile result));
              a_float (Duration (InputFile result))] in
  let w := Printf w "Output: %s (%d bytes)\n"
             [a_string (Path (OutputFile result));
              a_int (Size (OutputFile result))] in
  let w := Printf w "Format: %s (%.1f kbps)\n"
             [a_string (Type_ (OutputFile result));
              a_float (BitrateKbps (Stats result))] in
  let w := Printf w "Processing: %d ms\n"
             [a_int (ProcessingTimeMs (Stats result))] in
  let w := Printf w "Compression: %.2f%%\n"
             [a_float (CompressionRatio (Stats result) * 100)%Q] in
  let w := Printf w "Samples: %d\n"
             [a_int (FramesProcessed (Stats result))] in
  Printf w "========================\n" [].

(** [Duration.Milliseconds]. *)
Definition Milliseconds (d : Z) : Z := Z.quot d 1000000.

Definition Transcode (t : DefaultTranscoder) (config : TranscoderConfig)
  (w0 : World)
  : option (World * call (option TranscoderResult * option error)) :=
  if negb (IsValidFormat (Format_ config)) then
    Some (w0, Done (None, Some ErrUnsupportedFormat))
  else
  match ValidateInput (os_Stat w0) (os_Open w0) t (InputPath config) with
  | (_, Some err) =>
      Some (w0, Done (None, Some (Wrapf "input validation failed" err)))
  | (_, None) =>
  match os_Create w0 (OutputPath config) with
  | (w1, Fail err) =>
      Some (w1, Done (None, Some (Wrapf "failed to create output file" err)))
  | (w1, Ok outputFile) =>
  (* from here on [outputFile.Close()] runs when the function leaves *)
  match GetEncoder b (Format_ config) with
  | (_, Some err) =>
      Some (file_Close w1 outputFile,
            Done (None, Some (Wrapf "failed to get encoder" err)))
  | (encoder, None) =>
  match os_Open w1 (InputPath config) with
  | Fail err =>
      Some (file_Close w1 outputFile,
            Done (None, Some (Wrapf "failed to open input file" err)))
  | Ok inputFile =>
  match ReadWAVSamples (os_File inputFile) with
  | (_, _, Some err) =>
      Some (file_Close w1 outputFile,
            Done (None, Some (Wrapf "failed to read WAV samples" err)))
  | (samples, fileInfo, None) =>
  match encoder with
  | None => Some (file_Close w1 outputFile, Panic)
  | Some encoder =>
  match CodecEncoder_Encode bcg729Encoder encoder samples (w1, outputFile) with
  | None => None
  | Some (_, (w2, _), Panicked) => Some (file_Close w2 outputFile, Panic)
  | Some (_, (w2, _), Returned (Some err)) =>
      Some (file_Close w2 outputFile,
            Done (None, Some (Wrapf "encoding failed" err)))
  | Some (encoder', (w2, _), Returned None) =>
  match os_Stat w2 (OutputPath config) with
  | Fail err =>
      Some (file_Close w2 outputFile,
            Done (None, Some (Wrapf "failed to get output file info" err)))
  | Ok outputSize =>
  let processingTime := time_Since in
  match fileInfo with
  | None => Some (file_Close w2 outputFile, Panic)
  | Some fileInfo =>
  let compressionRatio :=
    if 0 <? Size fileInfo
    then (outputSize # Z.to_pos (Size fileInfo))
    else 0%Q in
  let result :=
    {| InputFile := fileInfo;
       OutputFile :=
         {| Path := OutputPath config; Type_ := Format_ config;
            BitDepth := 0; SampleRate := 0; Channels := 0;
            TotalSamples := 0; Duration := 0%Q; Size := outputSize |};
       Stats :=
         {| ProcessingTimeMs := Milliseconds processingTime;
            CompressionRatio := compressionRatio;
            BitrateKbps := GetBitrate encoder';
            FramesProcessed := Z.of_nat (length samples) |};
       Error_ := None |} in
  let w3 := if verbose t then logResult t w2 result else w2 in
  Some (file_Close w3 outputFile, Done (Some result, None))
  end end end end end end end end end.

Definition TranscodeFromReader (t : DefaultTranscoder) (reader : io_Reader)
  (outputPath : string) (format : AudioFormat) (w0 : World)
  : option (World * call (option TranscoderResult * option error)) :=
  if negb (IsValidFormat format) then
    Some (w0, Done (None, Some ErrUnsupportedFormat))
  else
  match GetEncoder b format with
  | (_, Some err) =>
      Some (w0, Done (None, Some (Wrapf "failed to get encoder" err)))
  | (encoder, None) =>
  match ReadWAVSamples reader with
  | (_, _, Some err) =>
      Some (w0, Done (None, Some (Wrapf "failed to read WAV samples" err)))
  | (samples, fileInfo, None) =>
  match os_Create w0 outputPath with
  | (w1, Fail err) =>
      Some (w1, Done (None, Some (Wrapf "failed to create output file" err)))
  | (w1, Ok outputFile) =>
  match encoder with
  | None => Some (file_Close w1 outputFile, Panic)
  | Some encoder =>
  match CodecEncoder_Encode bcg729Encoder encoder samples (w1, outputFile) with
  | None => None
  | Some (_, (w2, _), Panicked) => Some (file_Close w2 outputFile, Panic)
  | Some (_, (w2, _), Returned (Some err)) =>
      Some (file_Close w2 outputFile,
            Done (None, Some (Wrapf "encoding failed" err)))
  | Some (encoder', (w2, _), Returned None) =>
  match os_Stat w2 outputPath with
  | Fail err =>
      Some (file_Close w2 outputFile,
            Done (None, Some (Wrapf "failed to get output file info" err)))
  | Ok outputSize =>
  let processingTime := time_Since in
  match fileInfo with
  | None => Some (file_Close w2 outputFile, Panic)
  | Some fileInfo =>
  let result :=
    {| InputFile := fileInfo;
       OutputFile :=
         {| Path := outputPath; Type_ := format;
            BitDepth := 0; SampleRate := 0; Channels := 0;
            TotalSamples := 0; Duration := 0%Q; Size := outputSize |};
       Stats :=
         {| ProcessingTimeMs := Milliseconds processingTime;
            CompressionRatio := 0%Q;
            BitrateKbps := GetBitrate encoder';
            FramesProcessed := Z.of_nat (length samples) |};
       Error_ := None |} in
  let w3 := if verbose t then logResult t w2 result else w2 in
  Some (file_Close w3 outputFile, Done (Some result, None))
  end end end end end end end.

Definition TranscodeToWriter {W : Type} `{io_Writer W}
  (t : DefaultTranscoder) (inputPath : string) (writer : W)
  (format : AudioFormat) (w0 : World)
  : option (World * W * call (option TranscoderResult * option error)) :=
  if negb (IsValidFormat format) then
    Some (w0, writer, Done (None, Some ErrUnsupportedFormat))
  else
  match ValidateInput (os_Stat w0) (os_Open w0) t inputPath with
  | (_, Some err) =>
      Some (w0, writer,
            Done (None, Some (Wrapf "input validation failed" err)))
  | (_, None) =>
  match GetEncoder b format with
  | (_, Some err) =>
      Some (w0, writer, Done (None, Some (Wrapf "failed to get encoder" err)))
  | (encoder, None) =>
  match os_Open w0 inputPath with
  | Fail err =>
      Some (w0, writer,
            Done (None, Some (Wrapf "failed to open input file" err)))
  | Ok inputFile =>
  match ReadWAVSamples (os_File inputFile) with
  | (_, _, Some err) =>
      Some (w0, writer,
            Done (None, Some (Wrapf "failed to read WAV samples" err)))
  | (samples, fileInfo, None) =>
  match encoder with
  | None => Some (w0, writer, Panic)
  | Some encoder =>
  match CodecEncoder_Encode bcg729Encoder encoder samples writer with
  | None => None
  | Some (_, writer', Panicked) => Some (w0, writer', Panic)
  | Some (_, writer', Returned (Some err)) =>
      Some (w0, writer', Done (None, Some (Wrapf "encoding failed" err)))
  | Some (encoder', writer', Returned None) =>
  let processingTime := time_Since in
  match fileInfo with
  | None => Some (w0, writer', Panic)
  | Some fileInfo =>
  let result :=
    {| InputFile := fileInfo;
       OutputFile :=
         {| Path := ""; Type_ := format;
            BitDepth := 0; SampleRate := 0; Channels := 0;
            TotalSamples := 0; Duration := 0%Q; Size := 0 |};
       Stats :=
         {| ProcessingTimeMs := Milliseconds processingTime;
            CompressionRatio := 0%Q;
            BitrateKbps := GetBitrate encoder';
            FramesProcessed := Z.of_nat (length samples) |};
       Error_ := None |} in
  let w1 := if verbose t then logResult t w0 result else w0 in
  Some (w1, writer', Done (Some result, None))
  end end end end end end end.

End Transcoder.

(** ** What the native codec is asked and what is taken from it *)

(** [bcg729Encoder] called on [frames] in order, starting from context
    [ctx]: the context after the last call, and the bytes the encoder takes
    from the calls, which for each call are the first [bitStreamLength]
    bytes of the 10-byte output array, and nothing when the length
    reported is not positive. *)
Fixpoint encoder_calls {Ctx : Type}
  (bcg729Encoder : Ctx -> list Z -> Ctx * list Z * Z)
  (ctx : Ctx) (frames : list (list Z)) : Ctx * list Z :=
  match frames with
  | [] => (ctx, [])
  | frame :: rest =>
      let '(ctx', stored, bitStreamLength) := bcg729Encoder ctx frame in
      let output := Go.copy (repeat 0 10%nat) stored in
      let taken :=
        if 0 <? bitStreamLength
        then firstn (Z.to_nat bitStreamLength) output
        else [] in
      let '(ctx'', bytes) := encoder_calls bcg729Encoder ctx' rest in
      (ctx'', taken ++ bytes)
  end.

(** [bcg729Decoder] called on [frames] in order, starting from context
    [ctx]: the context after the last call, and the memory of the 80
    samples of each call, 160 bytes a call. *)
Fixpoint decoder_calls {DCtx : Type}
  (bcg729Decoder : DCtx -> list Z -> DCtx * list Z) (order : byte_order)
  (ctx : DCtx) (frames : list (list Z)) : DCtx * list Z :=
  match frames with
  | [] => (ctx, [])
  | frame :: rest =>
      let '(ctx', stored) := bcg729Decoder ctx frame in
      let output := Go.copy (repeat 0 80%nat) stored in
      let decodedData := flat_map (int16_memory order) output in
      let '(ctx'', bytes) := decoder_calls bcg729Decoder order ctx' rest in
      (ctx'', decodedData ++ bytes)
  end.

(** ** Sample inputs *)

Module Samples.

(** The header of a conformant input: PCM, mono, 8000 Hz, 16 bits. *)
Definition pcm_mono_8k : WavFormat :=
  {| wf_AudioFormat := 1; wf_NumChannels := 1; wf_SampleRate := 8000;
     wf_ByteRate := 16000; wf_BlockAlign := 2; wf_BitsPerSample := 16 |}.

Definition stereo : WavFormat :=
  {| wf_AudioFormat := 1; wf_NumChannels := 2; wf_SampleRate := 8000;
     wf_ByteRate := 32000; wf_BlockAlign := 4; wf_BitsPerSample := 16 |}.

Definition cd_rate : WavFormat :=
  {| wf_AudioFormat := 1; wf_NumChannels := 1; wf_SampleRate := 44100;
     wf_ByteRate := 88200; wf_BlockAlign := 2; wf_BitsPerSample := 16 |}.

Definition eight_bit : WavFormat :=
  {| wf_AudioFormat := 1; wf_NumChannels := 1; wf_SampleRate := 8000;
     wf_ByteRate := 8000; wf_BlockAlign := 1; wf_BitsPerSample := 8 |}.

(** A file with header [format] and the three samples 0, 100, -100. *)
Definition file_with (format : WavFormat) : File :=
  {| Format := Ok format;
     Batches := [[ {| Values := (0, 0) |}; {| Values := (100, 0) |};
                   {| Values := (-100, 0) |} ]];
     Last := EOF |}.

(** A file system holding one file, whatever the path. *)
Definition stat_of (file : File) : string -> result Z := fun _ => Ok 50.
Definition open_of (file : File) : string -> result File :=
  fun _ => Ok file.

Definition quiet : DefaultTranscoder := {| verbose := false |}.

(** A stand-in for the native encoder: it keeps no state and reports the
    low bytes of the first ten samples of the frame. *)
Definition toy_codec : unit -> list Z -> unit * list Z * Z :=
  fun ctx frame => (ctx, map Go.byte (firstn 10 frame), 10).

(** Three samples: less than one G.729 frame. *)
Definition three : list Z := [7; -7; 9].

(** A conformant file holding values beyond 16 bits. *)
Definition wide : File :=
  {| Format := Ok pcm_mono_8k;
     Batches := [[ {| Values := (70000, 0) |} ]; [ {| Values := (-40000, 0) |} ]];
     Last := EOF |}.

(** A stand-in for the native decoder: the ten bytes of the frame become
    the first ten samples. *)
Definition toy_decoder : unit -> list Z -> unit * list Z :=
  fun ctx frame => (ctx, frame).

(** Stand-ins for the native library that keep, as their context, the
    frames they were called with, in order.  The encoder reports the
    length of the frame and its first nine samples as bytes; the decoder
    gives back the bytes of the frame as samples. *)
Definition recording_codec
  : list (list Z) -> list Z -> list (list Z) * list Z * Z :=
  fun ctx frame =>
    (ctx ++ [frame],
     Z.of_nat (length frame) :: map Go.byte (firstn 9 frame), 10).

(** A stand-in that breaks the contract of the library: it reports 11
    bytes for every frame. *)
Definition greedy_codec : unit -> list Z -> unit * list Z * Z :=
  fun ctx frame => (ctx, [], 11).

Definition recording_decoder
  : list (list Z) -> list Z -> list (list Z) * list Z :=
  fun ctx frame => (ctx ++ [frame], frame).

(** A small operating system: named entries that are either WAV inputs,
    kept as the library will see them together with their size, or files
    of raw bytes; [os.Create] makes or empties a raw file and uses its
    name as handle; what [Printf] was given is kept in order. *)
Inductive entry : Type :=
| wav_entry (file : File) (size : Z)
| raw_entry (bytes : list Z).

Record Disk : Type := {
  entries : list (string * entry);
  printed : list (string * list arg)
}.

Fixpoint lookup (path : string) (l : list (string * entry)) : option entry :=
  match l with
  | [] => None
  | (name, e) :: rest => if String.eqb name path then Some e else lookup path rest
  end.

Fixpoint store (path : string) (e : entry) (l : list (string * entry))
  : list (string * entry) :=
  match l with
  | [] => [(path, e)]
  | (name, old) :: rest =>
      if String.eqb name path then (name, e) :: rest
      else (name, old) :: store path e rest
  end.

Definition no_such_file : error := External "no such file or directory".

#[global] Instance Disk_OS : OS Disk string := {|
  os_Stat := fun d path =>
    match lookup path (entries d) with
    | Some (wav_entry _ size) => Ok size
    | Some (raw_entry bytes) => Ok (Z.of_nat (length bytes))
    | None => Fail no_such_file
    end;
  os_Open := fun d path =>
    match lookup path (entries d) with
    | Some (wav_entry file _) => Ok file
    | Some (raw_entry _) =>
        Ok {| Format := Fail (External "not a WAV file");
              Batches := []; Last := EOF |}
    | None => Fail no_such_file
    end;
  os_Create := fun d path =>
    ({| entries := store path (raw_entry []) (entries d);
        printed := printed d |}, Ok path);
  file_Write := fun d handle p =>
    match lookup handle (entries d) with
    | Some (raw_entry bytes) =>
        ({| entries := store handle (raw_entry (bytes ++ p)) (entries d);
            printed := printed d |}, None)
    | _ => (d, Some (External "bad file descriptor"))
    end;
  file_Close := fun d handle => d;
  Printf := fun d format args =>
    {| entries := entries d; printed := printed d ++ [(format, args)] |}
|}.

(** A disk holding the conformant three-sample input and a stereo one. *)
Definition disk : Disk :=
  {| entries := [("in.wav", wav_entry (file_with pcm_mono_8k) 50);
                 ("stereo.wav", wav_entry (file_with stereo) 56)];
     printed := [] |}.

Definition to_ulaw : TranscoderConfig :=
  {| InputPath := "in.wav"; OutputPath := "out.ulaw"; Format_ := FormatULaw |}.

End Samples.

(** ** The part the two transforms share *)

(** The statements of [pcmToULaw] and [pcmToALaw] between the bias and the
    last step, as a function of the sign test and the biased sample. *)
Definition composed (sign : bool) (pcm : Z) : Z :=
  let segment := 0 in
  let temp := Go.int16 (Z.shiftr pcm 7) in
  let segment := fst (segment_loop segment_fuel segment temp) in
  let segment := if 7 <? segment then 7 else segment in
  let quantization := Z.land (Go.int16 (Z.shiftr pcm (segment + 3))) 15 in
  let b := Z.lor (Go.byte (Z.shiftl segment 4)) (Go.byte quantization) in
  if sign then Z.lor b 128 else b.

(** The sample after the sign test, the negation and the bias. *)
Definition biased (pcm : Z) : Z :=
  Go.int16 ((if pcm <? 0 then Go.int16 (- pcm) else pcm) + 33).

(** The value the fields of a sample spell: sign bit, segment in bits
    4 to 6, quantization in bits 0 to 3. *)
Definition fields (negative : bool) (pcm : Z) : Z :=
  let segment := Z.min 7 (Z.max 0 (Z.log2 pcm - 6)) in
  (if negative then 128 else 0) + 16 * segment +
  Z.land (Z.shiftr pcm (segment + 3)) 15.

(** ** Checking a predicate on a whole interval *)

(** [p] on the [n] integers from [lo] upwards. *)
Fixpoint forall_from (n : nat) (lo : Z) (p : Z -> bool) : bool :=
  match n with
  | O => true
  | S n' => p lo && forall_from n' (lo + 1) p
  end.

(** * Properties *)

(** ** Fixed-width arithmetic *)

Lemma int16_id (z : Z) : Go.is_int16 z -> Go.int16 z = z.
Proof. unfold Go.is_int16, Go.int16. lia. Qed.

Lemma int16_range (z : Z) : Go.is_int16 (Go.int16 z).
Proof. unfold Go.is_int16, Go.int16. lia. Qed.

Lemma int16_neg (s : Z) :
  Go.is_int16 s -> s <> -32768 -> Go.int16 (- s) = - s.
Proof. unfold Go.is_int16, Go.int16. lia. Qed.

Lemma int16_neg_min : Go.int16 (- (-32768)) = -32768.
Proof. reflexivity. Qed.

Lemma byte_range (z : Z) : Go.is_byte (Go.byte z).
Proof. unfold Go.is_byte, Go.byte. lia. Qed.

Lemma is_byte_land (z : Z) : Go.is_byte z <-> Z.land z 255 = z.
Proof.
  change 255 with (Z.ones 8). rewrite Z.land_ones by lia.
  unfold Go.is_byte. change (2 ^ 8) with 256. lia.
Qed.

Lemma is_byte_lor (a b : Z) :
  Go.is_byte a -> Go.is_byte b -> Go.is_byte (Z.lor a b).
Proof.
  rewrite !is_byte_land. intros Ha Hb.
  now rewrite Z.land_lor_distr_l, Ha, Hb.
Qed.

Lemma is_byte_lxor (a b : Z) :
  Go.is_byte a -> Go.is_byte b -> Go.is_byte (Z.lxor a b).
Proof.
  rewrite !is_byte_land. intros Ha Hb.
  apply Z.bits_inj'. intros n Hn.
  rewrite Z.land_spec, !Z.lxor_spec.
  rewrite <- Ha at 2. rewrite <- Hb at 2. rewrite !Z.land_spec.
  destruct (Z.testbit a n), (Z.testbit b n), (Z.testbit 255 n); reflexivity.
Qed.

Lemma not8_involutive (b : Z) : Go.not8 (Go.not8 b) = b.
Proof.
  unfold Go.not8. now rewrite Z.lxor_assoc, Z.lxor_nilpotent, Z.lxor_0_r.
Qed.

(** ** The segment search *)

Lemma segment_loop_nonneg (fuel : nat) :
  forall segment temp,
    0 <= segment -> 0 <= fst (segment_loop fuel segment temp).
Proof.
  induction fuel as [|fuel IH]; intros segment temp Hs; simpl; [exact Hs|].
  destruct (0 <? temp); [apply IH; lia | exact Hs].
Qed.

Lemma halve_int16 (temp : Z) :
  0 < temp -> Go.is_int16 temp ->
  Go.int16 (Z.shiftr temp 1) = temp / 2.
Proof.
  intros Hpos Hr. rewrite Z.shiftr_div_pow2 by lia. change (2 ^ 1) with 2.
  apply int16_id. unfold Go.is_int16 in *. lia.
Qed.

(** With [n + 1] iterations allowed, the loop leaves through its test
    whenever [temp] is below [2 ^ n]. *)
Lemma segment_loop_exits_below (n : nat) :
  forall segment temp,
    Go.is_int16 temp -> temp < 2 ^ Z.of_nat n ->
    snd (segment_loop (S n) segment temp) <= 0.
Proof.
  induction n as [|n IH]; intros segment temp Hr Hlt.
  - simpl in *. destruct (0 <? temp) eqn:E; simpl; lia.
  - cbn [segment_loop]. destruct (0 <? temp) eqn:E; [|simpl; lia].
    apply Z.ltb_lt in E. rewrite halve_int16 by assumption.
    apply IH.
    + unfold Go.is_int16 in *. lia.
    + rewrite Nat2Z.inj_succ, Z.pow_succ_r in Hlt by lia. lia.
Qed.

(** The fuel given to the loop is never used up: on every [int16] the
    search stops because [temp > 0] has become false. *)
Lemma segment_loop_exits (segment temp : Z) :
  Go.is_int16 temp ->
  snd (segment_loop segment_fuel segment temp) <= 0.
Proof.
  intros Hr. apply (segment_loop_exits_below 15); [exact Hr|].
  unfold Go.is_int16 in Hr. change (2 ^ Z.of_nat 15) with 32768. lia.
Qed.

(** Once the loop has stopped, more fuel changes nothing. *)
Lemma segment_loop_stable (fuel extra : nat) :
  forall segment temp,
    snd (segment_loop fuel segment temp) <= 0 ->
    segment_loop (fuel + extra) segment temp = segment_loop fuel segment temp.
Proof.
  induction fuel as [|fuel IH]; intros segment temp Hstop.
  - simpl in Hstop. destruct extra; simpl; [reflexivity|].
    destruct (0 <? temp) eqn:E; [apply Z.ltb_lt in E; lia | reflexivity].
  - simpl in *. destruct (0 <? temp); [apply IH; exact Hstop | reflexivity].
Qed.

(** ** The byte both transforms compose *)

Lemma segment_byte_bit7 (segment : Z) :
  0 <= segment <= 7 ->
  Z.testbit (Go.byte (Z.shiftl segment 4)) 7 = false.
Proof.
  intros Hs. unfold Go.byte. change 256 with (2 ^ 8).
  rewrite Z.mod_pow2_bits_low, Z.shiftl_spec by lia.
  change (7 - 4) with 3.
  rewrite <- (Z.mod_small segment (2 ^ 3)) by (change (2 ^ 3) with 8; lia).
  apply Z.mod_pow2_bits_high. lia.
Qed.

Lemma quantization_byte_bit7 (x : Z) :
  Z.testbit (Go.byte (Z.land x 15)) 7 = false.
Proof.
  unfold Go.byte. change 256 with (2 ^ 8).
  rewrite Z.mod_pow2_bits_low, Z.land_spec by lia.
  apply andb_false_r.
Qed.

Lemma clipped_segment (segment : Z) :
  0 <= segment -> 0 <= (if 7 <? segment then 7 else segment) <= 7.
Proof. intros Hs. destruct (7 <? segment) eqn:E; lia. Qed.

(** Bit 7 of the mu-law byte is the complement of the sign test. *)
Lemma pcmToULaw_bit7 (pcm : Z) :
  Z.testbit (pcmToULaw pcm) 7 = negb (pcm <? 0).
Proof.
  unfold pcmToULaw, Go.not8. cbv zeta.
  rewrite Z.lxor_spec. change (Z.testbit 255 7) with true.
  rewrite xorb_true_r. f_equal.
  assert (Hseg := clipped_segment _
    (segment_loop_nonneg segment_fuel 0
       (Go.int16 (Z.shiftr (Go.int16
          ((if pcm <? 0 then Go.int16 (- pcm) else pcm) + 33)) 7))
       (Z.le_refl 0))).
  destruct (pcm <? 0); rewrite ?Z.lor_spec;
    rewrite (segment_byte_bit7 _ Hseg), quantization_byte_bit7; reflexivity.
Qed.

(** Bit 7 of the A-law byte is the sign test itself. *)
Lemma pcmToALaw_bit7 (pcm : Z) :
  Z.testbit (pcmToALaw pcm) 7 = (pcm <? 0).
Proof.
  unfold pcmToALaw. cbv zeta.
  rewrite Z.lxor_spec. change (Z.testbit 85 7) with false.
  rewrite xorb_false_r.
  assert (Hseg := clipped_segment _
    (segment_loop_nonneg segment_fuel 0
       (Go.int16 (Z.shiftr (Go.int16
          ((if pcm <? 0 then Go.int16 (- pcm) else pcm) + 33)) 7))
       (Z.le_refl 0))).
  destruct (pcm <? 0); rewrite ?Z.lor_spec;
    rewrite (segment_byte_bit7 _ Hseg), quantization_byte_bit7; reflexivity.
Qed.

Lemma sign_flips (s : Z) :
  Go.is_int16 s -> s <> 0 -> s <> -32768 ->
  (Go.int16 (- s) <? 0) = negb (s <? 0).
Proof.
  intros Hr H0 Hmin. rewrite int16_neg by assumption.
  destruct (s <? 0) eqn:E; simpl; lia.
Qed.

(** ** C1: the sign of a sample in the encoded byte *)

(** C1, as the claim states it, fails: the claim ranges over every nonzero
    [int16], and the [int16] negation of -32768 is -32768 itself, so both
    transforms give one byte for this sample and its negation. *)
Lemma C1_sign_counterexample :
  ~ (forall s : Z,
       Go.is_int16 s -> s <> 0 ->
       pcmToULaw s <> pcmToULaw (Go.int16 (- s)) /\
       pcmToALaw s <> pcmToALaw (Go.int16 (- s))).
Proof.
  intros Hclaim.
  destruct (Hclaim (-32768)) as [Hu _].
  - unfold Go.is_int16. lia.
  - lia.
  - apply Hu. rewrite int16_neg_min. reflexivity.
Qed.

(** C1 (amended): for every [int16] sample [s] other than 0 and -32768,
    [pcmToULaw s] differs from [pcmToULaw (-s)] and [pcmToALaw s] differs
    from [pcmToALaw (-s)]; the two bytes differ in bit 7, which carries the
    sign of the input: in the mu-law byte bit 7 is set exactly for the
    samples that are not negative, in the A-law byte exactly for the
    negative ones. *)
Theorem C1_sign_observable (s : Z) :
  Go.is_int16 s -> s <> 0 -> s <> -32768 ->
  pcmToULaw s <> pcmToULaw (Go.int16 (- s)) /\
  pcmToALaw s <> pcmToALaw (Go.int16 (- s)) /\
  Z.testbit (pcmToULaw s) 7 = negb (s <? 0) /\
  Z.testbit (pcmToULaw (Go.int16 (- s))) 7 = (s <? 0) /\
  Z.testbit (pcmToALaw s) 7 = (s <? 0) /\
  Z.testbit (pcmToALaw (Go.int16 (- s))) 7 = negb (s <? 0).
Proof.
  intros Hr H0 Hmin.
  pose proof (sign_flips s Hr H0 Hmin) as Hflip.
  pose proof (pcmToULaw_bit7 s) as Hu.
  pose proof (pcmToULaw_bit7 (Go.int16 (- s))) as Hu'.
  pose proof (pcmToALaw_bit7 s) as Ha.
  pose proof (pcmToALaw_bit7 (Go.int16 (- s))) as Ha'.
  rewrite Hflip in Hu', Ha'. rewrite negb_involutive in Hu'.
  split; [|split; [|split; [|split; [|split]]]]; try assumption.
  - intros Heq. rewrite Heq, Hu' in Hu. destruct (s <? 0); discriminate.
  - intros Heq. rewrite Heq, Ha' in Ha. destruct (s <? 0); discriminate.
Qed.

Lemma C1_sign_observable_witness :
  Go.is_int16 1000 /\
  pcmToULaw 1000 <> pcmToULaw (Go.int16 (- 1000)) /\
  pcmToALaw 1000 <> pcmToALaw (Go.int16 (- 1000)) /\
  Z.testbit (pcmToULaw 1000) 7 = negb (1000 <? 0) /\
  Z.testbit (pcmToULaw (Go.int16 (- 1000))) 7 = (1000 <? 0) /\
  Z.testbit (pcmToALaw 1000) 7 = (1000 <? 0) /\
  Z.testbit (pcmToALaw (Go.int16 (- 1000))) 7 = negb (1000 <? 0).
Proof.
  split.
  - unfold Go.is_int16. lia.
  - apply (C1_sign_observable 1000); [unfold Go.is_int16|..]; lia.
Defined.

(** ** C9: mu-law and A-law differ in the last step only *)

(** C9: for every sample [s], [pcmToALaw s] is the complement of
    [pcmToULaw s] XORed with 0x55, and [pcmToULaw s] XOR [pcmToALaw s] is
    0xAA; both results are bytes. *)
Theorem C9_alaw_from_ulaw (s : Z) :
  pcmToALaw s = Z.lxor (Go.not8 (pcmToULaw s)) 85 /\
  Z.lxor (pcmToULaw s) (pcmToALaw s) = 170 /\
  Go.is_byte (pcmToULaw s) /\ Go.is_byte (pcmToALaw s).
Proof.
  unfold pcmToULaw, pcmToALaw. cbv zeta.
  set (sign := s <? 0).
  set (pcm := Go.int16 ((if sign then Go.int16 (- s) else s) + 33)).
  set (segment :=
         if 7 <? fst (segment_loop segment_fuel 0 (Go.int16 (Z.shiftr pcm 7)))
         then 7
         else fst (segment_loop segment_fuel 0 (Go.int16 (Z.shiftr pcm 7)))).
  set (quantization := Z.land (Go.int16 (Z.shiftr pcm (segment + 3))) 15).
  set (composed := Z.lor (Go.byte (Z.shiftl segment 4)) (Go.byte quantization)).
  set (signed := if sign then Z.lor composed 128 else composed).
  assert (Hb : Go.is_byte signed).
  { assert (Hc : Go.is_byte composed)
      by (apply is_byte_lor; apply byte_range).
    unfold signed. destruct sign; [|exact Hc].
    apply is_byte_lor; [exact Hc | unfold Go.is_byte; lia]. }
  repeat split.
  - now rewrite not8_involutive.
  - unfold Go.not8.
    rewrite (Z.lxor_comm signed 255), Z.lxor_assoc,
      <- (Z.lxor_assoc signed signed 85), Z.lxor_nilpotent, Z.lxor_0_l.
    reflexivity.
  - apply is_byte_lxor; [exact Hb | unfold Go.is_byte; lia].
  - apply is_byte_lxor; [exact Hb | unfold Go.is_byte; lia].
  - apply is_byte_lxor; [exact Hb | unfold Go.is_byte; lia].
  - apply is_byte_lxor; [exact Hb | unfold Go.is_byte; lia].
Qed.

(** ** C7: SLIN byte order *)


(** ** The stateless encoders on a sink that accepts everything *)

Section AcceptingSink.
Context {W : Type} `{io_Writer W}.
Variable written : W -> list Z.
Hypothesis accepting : accepts_all written.

Lemma accepted_write (w : W) (p : list Z) :
  exists w', Write w p = (w', None) /\ written w' = written w ++ p.
Proof.
  destruct (accepting w p) as [Herr Hout].
  destruct (Write w p) as [w' err]. simpl in *. subst err.
  exists w'. split; [reflexivity | exact Hout].
Qed.

Lemma ULawEncoder_Encode_accepting (samples : list Z) :
  forall w, exists w',
    ULawEncoder_Encode samples w = (w', None) /\
    written w' = written w ++ map pcmToULaw samples.
Proof.
  induction samples as [|sample rest IH]; intros w; simpl.
  - exists w. now rewrite app_nil_r.
  - destruct (accepted_write w [pcmToULaw sample]) as (w1 & -> & Hw1).
    destruct (IH w1) as (w2 & -> & Hw2).
    exists w2. split; [reflexivity|].
    now rewrite Hw2, Hw1, <- app_assoc.
Qed.

Lemma ALawEncoder_Encode_accepting (samples : list Z) :
  forall w, exists w',
    ALawEncoder_Encode samples w = (w', None) /\
    written w' = written w ++ map pcmToALaw samples.
Proof.
  induction samples as [|sample rest IH]; intros w; simpl.
  - exists w. now rewrite app_nil_r.
  - destruct (accepted_write w [pcmToALaw sample]) as (w1 & -> & Hw1).
    destruct (IH w1) as (w2 & -> & Hw2).
    exists w2. split; [reflexivity|].
    now rewrite Hw2, Hw1, <- app_assoc.
Qed.

Lemma SLINEncoder_Encode_accepting (samples : list Z) :
  forall w, exists w',
    SLINEncoder_Encode samples w = (w', None) /\
    written w' = written w ++ flat_map slin_bytes samples.
Proof.
  induction samples as [|sample rest IH]; intros w; simpl.
  - exists w. now rewrite app_nil_r.
  - fold (slin_bytes sample).
    destruct (accepted_write w (slin_bytes sample)) as (w1 & -> & Hw1).
    destruct (IH w1) as (w2 & -> & Hw2).
    exists w2. split; [reflexivity|].
    now rewrite Hw2, Hw1, <- app_assoc.
Qed.

End AcceptingSink.

Lemma Buffer_accepts_all : accepts_all (fun buf : Buffer => buf).
Proof. intros w p. split; reflexivity. Qed.

Lemma length_flat_map_slin_bytes (samples : list Z) :
  length (flat_map slin_bytes samples) = (2 * length samples)%nat.
Proof. induction samples as [|s rest IH]; simpl in *; lia. Qed.

(** ** C4: output sizes *)

(** C4: on a sink that accepts all writes, [ULawEncoder.Encode] and
    [ALawEncoder.Encode] of N samples return no error and append to the
    sink exactly the N bytes of the samples in input order, and
    [SLINEncoder.Encode] returns no error and appends exactly 2N bytes. *)
Theorem C4_output_sizes {W : Type} `{io_Writer W}
  (written : W -> list Z) (samples : list Z) (w : W) :
  accepts_all written ->
  (exists w',
     ULawEncoder_Encode samples w = (w', None) /\
     written w' = written w ++ map pcmToULaw samples /\
     length (written w') = (length (written w) + length samples)%nat) /\
  (exists w',
     ALawEncoder_Encode samples w = (w', None) /\
     written w' = written w ++ map pcmToALaw samples /\
     length (written w') = (length (written w) + length samples)%nat) /\
  (exists w',
     SLINEncoder_Encode samples w = (w', None) /\
     written w' = written w ++ flat_map slin_bytes samples /\
     length (written w') = (length (written w) + 2 * length samples)%nat).
Proof.
  intros Hacc. repeat split.
  - destruct (ULawEncoder_Encode_accepting written Hacc samples w)
      as (w' & Hrun & Hout).
    exists w'. repeat split; try assumption.
    now rewrite Hout, length_app, length_map.
  - destruct (ALawEncoder_Encode_accepting written Hacc samples w)
      as (w' & Hrun & Hout).
    exists w'. repeat split; try assumption.
    now rewrite Hout, length_app, length_map.
  - destruct (SLINEncoder_Encode_accepting written Hacc samples w)
      as (w' & Hrun & Hout).
    exists w'. repeat split; try assumption.
    now rewrite Hout, length_app, length_flat_map_slin_bytes.
Qed.

Lemma C4_output_sizes_witness :
  (exists w' : Buffer,
     ULawEncoder_Encode [0; 100; -100; 1000; -1000] [] = (w', None) /\
     w' = [] ++ map pcmToULaw [0; 100; -100; 1000; -1000] /\
     length w' = (0 + 5)%nat) /\
  (exists w' : Buffer,
     ALawEncoder_Encode [0; 100; -100; 1000; -1000] [] = (w', None) /\
     w' = [] ++ map pcmToALaw [0; 100; -100; 1000; -1000] /\
     length w' = (0 + 5)%nat) /\
  (exists w' : Buffer,
     SLINEncoder_Encode [0; 100; -100; 1000; -1000] [] = (w', None) /\
     w' = [] ++ flat_map slin_bytes [0; 100; -100; 1000; -1000] /\
     length w' = (0 + 2 * 5)%nat).
Proof.
  exact (C4_output_sizes (fun buf : Buffer => buf)
           [0; 100; -100; 1000; -1000] [] Buffer_accepts_all).
Defined.

(** ** C10: SLIN is lossless *)

Lemma slin_decode_bytes (s : Z) (rest : list Z) :
  Go.is_int16 s ->
  slin_decode (slin_bytes s ++ rest) = s :: slin_decode rest.
Proof.
  intros Hr. unfold slin_bytes. cbn [app slin_decode]. f_equal.
  unfold Go.byte.
  change 255 with (Z.ones 8). rewrite !Z.land_ones by lia.
  rewrite Z.shiftr_div_pow2 by lia. change (2 ^ 8) with 256.
  unfold Go.is_int16 in Hr.
  rewrite (int16_id (s / 256)) by (unfold Go.is_int16; lia).
  unfold Go.int16. rewrite !Z.mod_mod by lia.
  pose proof (Z.div_mod s 256 ltac:(lia)) as Hdm.
  pose proof (Z.mod_pos_bound s 256 ltac:(lia)) as Hlo.
  set (q := s / 256) in *. set (r := s mod 256) in *.
  assert (Hq : -128 <= q <= 127) by lia.
  assert (Hhi : q mod 256 = q \/ q mod 256 = q + 256) by lia.
  destruct Hhi as [-> | ->].
  - rewrite Z.mod_small by lia. lia.
  - replace (r + 256 * (q + 256) + 32768)
      with (r + 256 * q + 32768 + 1 * 65536) by lia.
    rewrite Z.mod_add by lia. rewrite Z.mod_small by lia. lia.
Qed.

Lemma slin_decode_flat_map (samples : list Z) :
  Forall Go.is_int16 samples ->
  slin_decode (flat_map slin_bytes samples) = samples.
Proof.
  induction 1 as [|s rest Hs _ IH]; [reflexivity|].
  cbn [flat_map]. rewrite slin_decode_bytes by exact Hs. now rewrite IH.
Qed.

(** C10: on a sink that accepts all writes and starts empty,
    [SLINEncoder.Encode] of a list of [int16] samples returns no error and
    reading its output back as little-endian byte pairs gives the list
    again; hence two sample lists with the same output are equal. *)
Theorem C10_slin_lossless {W : Type} `{io_Writer W}
  (written : W -> list Z) (w : W) :
  accepts_all written -> written w = [] ->
  (forall samples,
     Forall Go.is_int16 samples ->
     exists w',
       SLINEncoder_Encode samples w = (w', None) /\
       slin_decode (written w') = samples) /\
  (forall samples1 samples2,
     Forall Go.is_int16 samples1 -> Forall Go.is_int16 samples2 ->
     written (fst (SLINEncoder_Encode samples1 w)) =
     written (fst (SLINEncoder_Encode samples2 w)) ->
     samples1 = samples2).
Proof.
  intros Hacc Hempty.
  assert (Hrt : forall samples,
             Forall Go.is_int16 samples ->
             exists w',
               SLINEncoder_Encode samples w = (w', None) /\
               slin_decode (written w') = samples).
  { intros samples Hs.
    destruct (SLINEncoder_Encode_accepting written Hacc samples w)
      as (w' & Hrun & Hout).
    exists w'. split; [exact Hrun|].
    rewrite Hout, Hempty. simpl. now apply slin_decode_flat_map. }
  split; [exact Hrt|].
  intros samples1 samples2 H1 H2 Hsame.
  destruct (Hrt samples1 H1) as (w1 & Hrun1 & Hdec1).
  destruct (Hrt samples2 H2) as (w2 & Hrun2 & Hdec2).
  rewrite Hrun1, Hrun2 in Hsame. simpl in Hsame.
  rewrite <- Hdec1, <- Hdec2, Hsame. reflexivity.
Qed.

Lemma C10_slin_lossless_witness :
  exists w' : Buffer,
    SLINEncoder_Encode [100; 0; -2; -32768; 32767] [] = (w', None) /\
    slin_decode w' = [100; 0; -2; -32768; 32767].
Proof.
  refine (proj1 (C10_slin_lossless (fun buf : Buffer => buf) []
                   Buffer_accepts_all eq_refl) [100; 0; -2; -32768; 32767] _).
  repeat constructor; unfold Go.is_int16; lia.
Defined.

(** ** C6: the registry *)

Lemma IsValidFormat_supported (format : AudioFormat) :
  IsValidFormat format = true <-> In format GetSupportedFormats.
Proof.
  unfold IsValidFormat, GetSupportedFormats. simpl.
  rewrite !orb_true_iff, !String.eqb_eq. intuition congruence.
Qed.

Lemma GetEncoder_unknown {Ctx} (b : build Ctx) (format : AudioFormat) :
  ~ In format GetSupportedFormats ->
  GetEncoder b format = (None, Some ErrUnsupportedFormat).
Proof.
  intros Hout. unfold GetEncoder.
  destruct (String.eqb_spec format FormatG729) as [->|_];
    [exfalso; apply Hout; simpl; auto|].
  destruct (String.eqb_spec format FormatULaw) as [->|_];
    [exfalso; apply Hout; simpl; auto|].
  destruct (String.eqb_spec format FormatALaw) as [->|_];
    [exfalso; apply Hout; simpl; auto|].
  destruct (String.eqb_spec format FormatSLIN) as [->|_];
    [exfalso; apply Hout; simpl; auto|].
  reflexivity.
Qed.

(** C6: on either build, [GetEncoder] of ULaw, ALaw and SLIN returns no
    error and an encoder whose [GetFormat] is the format asked for;
    [GetEncoder] of any string outside the four formats, the string
    [invalid] among them, returns no encoder and [ErrUnsupportedFormat]. *)
Theorem C6_get_encoder {Ctx : Type} (b : build Ctx) :
  (forall format,
     In format [FormatULaw; FormatALaw; FormatSLIN] ->
     exists e, GetEncoder b format = (Some e, None) /\ GetFormat e = format) /\
  (forall format,
     ~ In format GetSupportedFormats ->
     GetEncoder b format = (None, Some ErrUnsupportedFormat)) /\
  GetEncoder b "invalid" = (None, Some ErrUnsupportedFormat).
Proof.
  split; [|split].
  - intros format [<-|[<-|[<-|[]]]].
    + exists ULawEncoder. split; reflexivity.
    + exists ALawEncoder. split; reflexivity.
    + exists SLINEncoder. split; reflexivity.
  - apply GetEncoder_unknown.
  - reflexivity.
Qed.

Lemma C6_get_encoder_witness :
  (exists e : CodecEncoder unit,
     GetEncoder nocgo FormatSLIN = (Some e, None) /\ GetFormat e = FormatSLIN) /\
  GetEncoder (@nocgo unit) "mp3" = (None, Some ErrUnsupportedFormat).
Proof.
  split.
  - apply (proj1 (C6_get_encoder (@nocgo unit)) FormatSLIN).
    simpl. auto.
  - apply (proj1 (proj2 (C6_get_encoder (@nocgo unit))) "mp3").
    simpl. intros [H|[H|[H|[H|[]]]]]; discriminate H.
Defined.

(** ** C3: G.729 without the native library *)

(** C3, as the claim states it, fails: on the build without cgo the error
    of [GetEncoder] for G729 is not [ErrCodecNotAvailable], nor does it
    wrap it. *)
Lemma C3_not_typed_counterexample :
  ~ (exists err,
       snd (GetEncoder (@nocgo unit) FormatG729) = Some err /\
       errors_Is err ErrCodecNotAvailable = true).
Proof.
  intros (err & Herr & His). simpl in Herr.
  injection Herr as <-. discriminate His.
Qed.

(** C3 (amended): on the build without cgo, [GetEncoder] for G729 returns
    no encoder and the error made by [fmt.Errorf] with the text
    [G.729 encoder not available: G.729 encoding requires CGO and libbcg729
    library]; this error is none of the package's five sentinel errors and
    wraps none of them, so [errors.Is] tells it apart from
    [ErrInvalidInput], [ErrInvalidFormat] and [ErrUnsupportedFormat], and
    equally from [ErrCodecNotAvailable]; [GetEncoder] for ULaw on the same
    build returns an encoder and no error. *)
Theorem C3_g729_unavailable {Ctx : Type} :
  exists err,
    GetEncoder (@nocgo Ctx) FormatG729 = (None, Some err) /\
    Error err =
      "G.729 encoder not available: G.729 encoding requires CGO and libbcg729 library" /\
    errors_Is err ErrCodecNotAvailable = false /\
    errors_Is err ErrInvalidInput = false /\
    errors_Is err ErrInvalidFormat = false /\
    errors_Is err ErrUnsupportedFormat = false /\
    errors_Is err ErrInvalidOutput = false /\
    GetEncoder (@nocgo Ctx) FormatULaw = (Some ULawEncoder, None).
Proof.
  eexists. split; [reflexivity|]. repeat split; reflexivity.
Qed.

(** ** C8: readers that are not files *)

(** C8: [ReadWAVSamples] of a reader whose dynamic type is not [*os.File]
    returns no samples, no file information and an error, whatever bytes
    the reader would deliver; a call that returns a nil error was given an
    [*os.File]. *)
Theorem C8_only_os_File :
  (forall type_name stream,
     ReadWAVSamples (other_Reader type_name stream) =
     ([], None, Some (Errorf "reader must be *os.File for youpy/go-wav"))) /\
  (forall reader samples info,
     ReadWAVSamples reader = (samples, info, None) ->
     exists file, reader = os_File file).
Proof.
  split.
  - reflexivity.
  - intros [file|type_name stream] samples info Hrun.
    + exists file. reflexivity.
    + discriminate Hrun.
Qed.

Lemma C8_only_os_File_witness :
  exists file, os_File (Samples.file_with Samples.pcm_mono_8k) = os_File file.
Proof.
  refine (proj2 C8_only_os_File
            (os_File (Samples.file_with Samples.pcm_mono_8k)) [0; 100; -100]
            _ _).
  vm_compute. reflexivity.
Defined.

(** ** C2: input validation *)

(** C2, as the claim states it, fails: validating a two-channel file gives
    an error for which [errors.Is] with [ErrInvalidInput] is false. *)
Lemma C2_invalid_input_counterexample :
  ~ (exists err,
       snd (ValidateInput (Samples.stat_of (Samples.file_with Samples.stereo))
              (Samples.open_of (Samples.file_with Samples.stereo))
              Samples.quiet "stereo.wav") = Some err /\
       errors_Is err ErrInvalidInput = true).
Proof.
  intros (err & Herr & His). vm_compute in Herr.
  injection Herr as <-. discriminate His.
Qed.

Lemma ReadWAVSamples_rejects (file : File) (format : WavFormat) :
  Format file = Ok format ->
  wf_NumChannels format = 2 \/ wf_SampleRate format = 44100 \/
  wf_BitsPerSample format = 8 ->
  ReadWAVSamples (os_File file) = ([], None, Some ErrInvalidFormat).
Proof.
  intros Hf Hbad. unfold ReadWAVSamples. rewrite Hf.
  destruct (wf_AudioFormat format =? 1); [|reflexivity]. simpl.
  destruct (wf_NumChannels format =? 1) eqn:Ec; [|reflexivity]. simpl.
  destruct (wf_SampleRate format =? 8000) eqn:Er; [|reflexivity]. simpl.
  destruct (wf_BitsPerSample format =? 16) eqn:Eb; [|reflexivity]. simpl.
  apply Z.eqb_eq in Ec, Er, Eb. lia.
Qed.

(** C2 (amended): when the file exists, opens, and its header reports 2
    channels, or 44100 Hz, or 8 bits per sample, [ReadWAVSamples] returns
    [ErrInvalidFormat] and [ValidateInput] fails with that error wrapped
    under the text [invalid WAV file]: [errors.Is] holds for
    [ErrInvalidFormat] and not for [ErrInvalidInput]. *)
Theorem C2_invalid_metadata
  (os_Stat : string -> result Z) (os_Open : string -> result File)
  (t : DefaultTranscoder) (inputPath : string)
  (size : Z) (file : File) (format : WavFormat) :
  os_Stat inputPath = Ok size ->
  os_Open inputPath = Ok file ->
  Format file = Ok format ->
  wf_NumChannels format = 2 \/ wf_SampleRate format = 44100 \/
  wf_BitsPerSample format = 8 ->
  exists err,
    ReadWAVSamples (os_File file) = ([], None, Some ErrInvalidFormat) /\
    ValidateInput os_Stat os_Open t inputPath = (None, Some err) /\
    err = Wrapf "invalid WAV file" ErrInvalidFormat /\
    errors_Is err ErrInvalidFormat = true /\
    errors_Is err ErrInvalidInput = false.
Proof.
  intros Hstat Hopen Hf Hbad.
  pose proof (ReadWAVSamples_rejects file format Hf Hbad) as Hread.
  exists (Wrapf "invalid WAV file" ErrInvalidFormat).
  split; [exact Hread|].
  split; [|repeat split; reflexivity].
  unfold ValidateInput. rewrite Hstat, Hopen, Hread. reflexivity.
Qed.

Lemma C2_invalid_metadata_witness :
  exists err,
    ReadWAVSamples (os_File (Samples.file_with Samples.cd_rate)) =
      ([], None, Some ErrInvalidFormat) /\
    ValidateInput (Samples.stat_of (Samples.file_with Samples.cd_rate))
      (Samples.open_of (Samples.file_with Samples.cd_rate))
      Samples.quiet "cd.wav" = (None, Some err) /\
    err = Wrapf "invalid WAV file" ErrInvalidFormat /\
    errors_Is err ErrInvalidFormat = true /\
    errors_Is err ErrInvalidInput = false.
Proof.
  apply (C2_invalid_metadata
           (Samples.stat_of (Samples.file_with Samples.cd_rate))
           (Samples.open_of (Samples.file_with Samples.cd_rate))
           Samples.quiet "cd.wav" 50
           (Samples.file_with Samples.cd_rate) Samples.cd_rate);
    try reflexivity.
  right. left. reflexivity.
Defined.

(** ** C5: G.729 framing *)

Lemma copy_length {A} (dst src : list A) :
  length (Go.copy dst src) = length dst.
Proof.
  unfold Go.copy. rewrite length_app, length_firstn, length_skipn. lia.
Qed.

Lemma skipn_repeat {A} (x : A) (k n : nat) :
  skipn k (repeat x n) = repeat x (n - k).
Proof.
  revert k. induction n as [|n IH]; intros [|k]; simpl; auto.
Qed.

Lemma padding_0 : padding 0 = 0%nat.
Proof. reflexivity. Qed.

Lemma padding_full (m : nat) :
  (80 <= m)%nat -> padding (m - 80) = padding m.
Proof.
  intros Hm. unfold padding.
  replace ((m - 80) mod 80)%nat with (m mod 80)%nat by lia. reflexivity.
Qed.

Lemma padding_short (m : nat) :
  (0 < m < 80)%nat -> padding m = (80 - m)%nat.
Proof.
  intros Hm. unfold padding.
  rewrite (Nat.mod_small m 80) by lia. apply Nat.mod_small. lia.
Qed.

Lemma padding_partial (m : nat) :
  (m mod 80 <> 0)%nat -> padding m = (80 - m mod 80)%nat.
Proof.
  intros Hm. unfold padding. apply Nat.mod_small. lia.
Qed.

(** One turn of the loop: the frame built from the samples left, then the
    frames of what follows it. *)
Lemma frame_then_rest (rest : list Z) :
  rest <> [] ->
  Go.copy (repeat 0 G729_cgo.frameSize) rest ++
    (skipn 80 rest ++ repeat 0 (padding (length rest - 80))) =
  rest ++ repeat 0 (padding (length rest)).
Proof.
  intros Hne. unfold Go.copy, G729_cgo.frameSize.
  rewrite repeat_length, skipn_repeat.
  assert (Hpos : (0 < length rest)%nat)
    by (destruct rest; [congruence | simpl; lia]).
  destruct (Nat.le_gt_cases 80 (length rest)) as [Hfull|Hshort].
  - replace (80 - length rest)%nat with 0%nat by lia.
    rewrite padding_full by exact Hfull.
    cbn [repeat]. rewrite app_nil_r, app_assoc, firstn_skipn. reflexivity.
  - rewrite firstn_all2, skipn_all2 by lia.
    replace (length rest - 80)%nat with 0%nat by lia.
    rewrite padding_0, padding_short by lia.
    cbn [repeat app]. rewrite app_nil_r. reflexivity.
Qed.

Lemma length_concat_frames (frames : list (list Z)) :
  Forall (fun frame => length frame = 80%nat) frames ->
  length (concat frames) = (80 * length frames)%nat.
Proof.
  induction 1 as [|f fs Hf _ IH]; [reflexivity|].
  simpl concat. rewrite length_app, Hf, IH. simpl length. lia.
Qed.

Lemma last_frame (frames : list (list Z)) :
  Forall (fun frame => length frame = 80%nat) frames ->
  frames <> [] ->
  last frames [] = skipn (80 * (length frames - 1)) (concat frames).
Proof.
  induction 1 as [|f fs Hf Hfs IH]; intros Hne; [congruence|].
  destruct fs as [|g fs].
  - simpl. now rewrite app_nil_r.
  - change (last (f :: g :: fs) []) with (last (g :: fs) []).
    rewrite IH by congruence.
    change (concat (f :: g :: fs)) with (f ++ concat (g :: fs)).
    rewrite skipn_app, Hf.
    rewrite (@skipn_all2 _ _ f) by (cbn [length]; lia).
    cbn [app length]. f_equal. lia.
Qed.

Section G729Frames.
Context {Ctx W : Type} `{io_Writer W}.
Variable codec : Ctx -> list Z -> Ctx * list Z * Z.
Variable written : W -> list Z.
Hypothesis accepting : accepts_all written.
Hypothesis reported : forall ctx frame, snd (codec ctx frame) <= 10.
Variable samples : list Z.

(** From index [i], with fuel beyond the samples left, the loop ends by
    its own test with a nil error, and the frames it hands over are all
    80 long and spell the samples left followed by zeros. *)
Lemma encode_frames_padded (fuel : nat) :
  forall i ctx w sent,
    (length samples - i < fuel)%nat ->
    exists r new,
      G729_cgo.encode_frames codec fuel i samples ctx w sent = Some r /\
      G729_cgo.result r = Returned None /\
      G729_cgo.submitted r = sent ++ new /\
      Forall (fun frame => length frame = 80%nat) new /\
      concat new =
        skipn i samples ++ repeat 0 (padding (length samples - i)).
Proof.
  induction fuel as [|fuel IH]; intros i ctx w sent Hfuel; [lia|].
  cbn [G729_cgo.encode_frames].
  destruct (i <? length samples)%nat eqn:Ei.
  - apply Nat.ltb_lt in Ei.
    set (frame := Go.copy (repeat 0 G729_cgo.frameSize) (skipn i samples)).
    pose proof (reported ctx frame) as Hn.
    destruct (codec ctx frame) as [[ctx' stored] n]. simpl in Hn.
    assert (Hrest : skipn i samples <> []).
    { intros Hnil. apply (f_equal (@length Z)) in Hnil.
      rewrite length_skipn in Hnil. simpl in Hnil. lia. }
    assert (Hstep : forall w1,
      exists r new,
        G729_cgo.encode_frames codec fuel (i + G729_cgo.frameSize)
          samples ctx' w1 (sent ++ [frame]) = Some r /\
        G729_cgo.result r = Returned None /\
        G729_cgo.submitted r = sent ++ new /\
        Forall (fun frame => length frame = 80%nat) new /\
        concat new =
          skipn i samples ++ repeat 0 (padding (length samples - i))).
    { intros w1.
      destruct (IH (i + G729_cgo.frameSize)%nat ctx' w1 (sent ++ [frame]))
        as (r & new & Hrun & Hres & Hsub & Hlen & Hcat).
      { unfold G729_cgo.frameSize. lia. }
      exists r, (frame :: new). split; [exact Hrun|].
      split; [exact Hres|].
      split; [rewrite Hsub, <- app_assoc; reflexivity|].
      split.
      - constructor; [|exact Hlen].
        unfold frame. rewrite copy_length, repeat_length. reflexivity.
      - unfold G729_cgo.frameSize in Hcat.
        cbn [concat]. rewrite Hcat.
        rewrite (Nat.add_comm i 80), <- skipn_skipn.
        replace (length samples - (80 + i))%nat
          with (length (skipn i samples) - 80)%nat
          by (rewrite length_skipn; lia).
        replace (length samples - i)%nat with (length (skipn i samples))
          by (rewrite length_skipn; lia).
        apply frame_then_rest. exact Hrest. }
    destruct (0 <? n); [|apply Hstep].
    destruct (n <=? 10) eqn:En; [|apply Z.leb_gt in En; lia].
    destruct (accepted_write written accepting w
                (firstn (Z.to_nat n) (Go.copy (repeat 0 10%nat) stored)))
      as (w1 & -> & _).
    apply Hstep.
  - apply Nat.ltb_ge in Ei.
    eexists. exists []. split; [reflexivity|].
    cbn. rewrite app_nil_r, skipn_all2 by lia.
    replace (length samples - i)%nat with 0%nat by lia.
    repeat split. constructor.
Qed.

End G729Frames.

Section G729Calls.
Context {Ctx W : Type} `{io_Writer W}.
Variable codec : Ctx -> list Z -> Ctx * list Z * Z.
Variable written : W -> list Z.
Hypothesis accepting : accepts_all written.
Variable samples : list Z.

(** A run of the loop that ends with a nil error has called the codec on
    exactly the frames it lists, in order: the context it leaves in the
    encoder is the one those calls lead to, and the sink has received the
    bytes taken from them. *)
Lemma encode_frames_calls (fuel : nat) :
  forall i ctx w sent r,
    G729_cgo.encode_frames codec fuel i samples ctx w sent = Some r ->
    G729_cgo.result r = Returned None ->
    exists new,
      G729_cgo.submitted r = sent ++ new /\
      G729_cgo.self r =
        {| G729_cgo.encoder := Some (fst (encoder_calls codec ctx new)) |} /\
      written (G729_cgo.sink r) =
        written w ++ snd (encoder_calls codec ctx new).
Proof.
  induction fuel as [|fuel IH]; intros i ctx w sent r Hrun Hres;
    [discriminate Hrun|].
  cbn [G729_cgo.encode_frames] in Hrun.
  destruct (i <? length samples)%nat.
  - set (frame := Go.copy (repeat 0 G729_cgo.frameSize) (skipn i samples))
      in *.
    destruct (codec ctx frame) as [[ctx' stored] n] eqn:Ec.
    assert (Hstep : forall w1 taken,
      G729_cgo.encode_frames codec fuel (i + G729_cgo.frameSize) samples
        ctx' w1 (sent ++ [frame]) = Some r ->
      written w1 = written w ++ taken ->
      taken = (if 0 <? n
               then firstn (Z.to_nat n) (Go.copy (repeat 0 10%nat) stored)
               else []) ->
      exists new,
        G729_cgo.submitted r = sent ++ new /\
        G729_cgo.self r =
          {| G729_cgo.encoder :=
               Some (fst (encoder_calls codec ctx new)) |} /\
        written (G729_cgo.sink r) =
          written w ++ snd (encoder_calls codec ctx new)).
    { intros w1 taken Hrest Hw1 Htaken.
      destruct (IH _ _ _ _ _ Hrest Hres) as (new & Hsub & Hself & Hsink).
      exists (frame :: new).
      split; [rewrite Hsub, <- app_assoc; reflexivity|].
      cbn [encoder_calls]. rewrite Ec, <- Htaken.
      destruct (encoder_calls codec ctx' new) as [ctx'' bytes].
      cbn [fst snd] in *.
      split; [exact Hself|].
      rewrite Hsink, Hw1, <- app_assoc. reflexivity. }
    destruct (0 <? n) eqn:Epos.
    + destruct (n <=? 10).
      * destruct (accepted_write written accepting w
                    (firstn (Z.to_nat n) (Go.copy (repeat 0 10%nat) stored)))
          as (w1 & Ew & Hw1).
        rewrite Ew in Hrun.
        apply (Hstep w1 _ Hrun Hw1 eq_refl).
      * injection Hrun as <-. discriminate Hres.
    + apply (Hstep w [] Hrun); [now rewrite app_nil_r | reflexivity].
  - injection Hrun as <-. exists []. cbn.
    rewrite !app_nil_r. repeat split.
Qed.

End G729Calls.

(** C5: with an initialised encoder, a native codec that reports at most
    10 bytes per frame and a sink that accepts all writes, [Encode] of a
    sample list whose length is not a multiple of 80 ends with a nil
    error; every frame it hands to the native codec is 80 samples long,
    there is one frame more than the number of whole frames, the frames in
    order spell all the samples followed by zeros, and the last frame is
    the tail of the samples followed by zeros up to 80.  These frames are
    what the codec is called with: the context left in the encoder is the
    one that calling the codec on them in order leads to, and the sink has
    received the bytes taken from those calls. *)
Theorem C5_g729_zero_padding {Ctx W : Type} `{io_Writer W}
  (codec : Ctx -> list Z -> Ctx * list Z * Z) (written : W -> list Z)
  (e : G729_cgo.G729Encoder Ctx) (ctx : Ctx) (samples : list Z) (w : W) :
  accepts_all written ->
  (forall ctx frame, snd (codec ctx frame) <= 10) ->
  G729_cgo.encoder e = Some ctx ->
  (length samples mod 80 <> 0)%nat ->
  exists r,
    G729_cgo.Encode codec e samples w = Some r /\
    G729_cgo.result r = Returned None /\
    Forall (fun frame => length frame = 80%nat) (G729_cgo.submitted r) /\
    length (G729_cgo.submitted r) = (length samples / 80 + 1)%nat /\
    concat (G729_cgo.submitted r) =
      samples ++ repeat 0 (80 - length samples mod 80) /\
    last (G729_cgo.submitted r) [] =
      skipn (80 * (length samples / 80)) samples ++
      repeat 0 (80 - length samples mod 80) /\
    G729_cgo.self r =
      {| G729_cgo.encoder :=
           Some (fst (encoder_calls codec ctx (G729_cgo.submitted r))) |} /\
    written (G729_cgo.sink r) =
      written w ++ snd (encoder_calls codec ctx (G729_cgo.submitted r)).
Proof.
  intros Hacc Hrep Henc Hmod.
  unfold G729_cgo.Encode. rewrite Henc.
  destruct (encode_frames_padded codec written Hacc Hrep samples
              (S (length samples)) 0 ctx w [])
    as (r & new & Hrun & Hres & Hsub & Hlen & Hcat); [lia|].
  destruct (encode_frames_calls codec written Hacc samples _ _ _ _ _ _
              Hrun Hres) as (called & Hcalled & Hself & Hsink).
  simpl in Hsub, Hcalled. rewrite <- Hsub in Hlen, Hcat.
  rewrite <- Hcalled in Hself, Hsink.
  rewrite Nat.sub_0_r in Hcat. simpl skipn in Hcat.
  pose proof (padding_partial _ Hmod) as Hpad.
  rewrite Hpad in Hcat.
  pose proof (length_concat_frames _ Hlen) as Hsize.
  rewrite Hcat, length_app, repeat_length in Hsize.
  assert (Hcount :
    length (G729_cgo.submitted r) = (length samples / 80 + 1)%nat) by lia.
  exists r. split; [exact Hrun|]. split; [exact Hres|].
  split; [exact Hlen|]. split; [exact Hcount|]. split; [exact Hcat|].
  split; [|split; [exact Hself | exact Hsink]].
  rewrite last_frame; [|exact Hlen|].
  - rewrite Hcount, Hcat, skipn_app.
    replace (length samples / 80 + 1 - 1)%nat
      with (length samples / 80)%nat by lia.
    replace (80 * (length samples / 80) - length samples)%nat
      with 0%nat by lia.
    reflexivity.
  - intros Hnil. rewrite Hnil in Hcount. simpl in Hcount. lia.
Qed.

Lemma toy_codec_reports ctx frame : snd (Samples.toy_codec ctx frame) <= 10.
Proof. simpl. lia. Qed.

Lemma recording_codec_reports ctx frame :
  snd (Samples.recording_codec ctx frame) <= 10.
Proof. simpl. lia. Qed.

Lemma C5_g729_zero_padding_witness :
  exists r : G729_cgo.run (list (list Z)) Buffer,
    G729_cgo.Encode Samples.recording_codec {| G729_cgo.encoder := Some [] |}
      Samples.three [] = Some r /\
    G729_cgo.result r = Returned None /\
    Forall (fun frame => length frame = 80%nat) (G729_cgo.submitted r) /\
    length (G729_cgo.submitted r) = (length Samples.three / 80 + 1)%nat /\
    concat (G729_cgo.submitted r) =
      Samples.three ++ repeat 0 (80 - length Samples.three mod 80) /\
    last (G729_cgo.submitted r) [] =
      skipn (80 * (length Samples.three / 80)) Samples.three ++
      repeat 0 (80 - length Samples.three mod 80) /\
    G729_cgo.self r =
      {| G729_cgo.encoder :=
           Some (fst (encoder_calls Samples.recording_codec []
                        (G729_cgo.submitted r))) |} /\
    G729_cgo.sink r =
      [] ++ snd (encoder_calls Samples.recording_codec []
                   (G729_cgo.submitted r)).
Proof.
  apply (C5_g729_zero_padding Samples.recording_codec
           (fun buf : Buffer => buf) {| G729_cgo.encoder := Some [] |} []
           Samples.three [] Buffer_accepts_all recording_codec_reports
           eq_refl).
  vm_compute. discriminate.
Defined.

(** ** A sink that fails *)

(** The hypothesis on the sink in C4 is needed: on a sink with room for
    two bytes, encoding three samples stops at the third write, hands back
    the error of that write, and leaves the two bytes already written. *)
Example ULawEncoder_Encode_short_write :
  ULawEncoder_Encode [0; 100; -100] {| stored := []; room := 2 |} =
  ({| stored := [251; 231]; room := 0 |}, Some (External "short write")).
Proof. reflexivity. Qed.

(** * Further properties of the codecs *)

Lemma forall_from_spec (n : nat) :
  forall lo p,
    forall_from n lo p = true ->
    forall z, lo <= z < lo + Z.of_nat n -> p z = true.
Proof.
  induction n as [|n IH]; intros lo p Hall z Hz; [lia|].
  simpl in Hall. apply andb_true_iff in Hall. destruct Hall as [Hlo Hrest].
  destruct (Z.eq_dec z lo) as [->|Hne]; [exact Hlo|].
  apply (IH (lo + 1) p Hrest). lia.
Qed.

(** ** The segment search in closed form *)

Lemma segment_loop_stops (fuel : nat) (segment temp : Z) :
  temp <= 0 -> segment_loop fuel segment temp = (segment, temp).
Proof.
  intros Hle. destruct fuel; simpl; [reflexivity|].
  destruct (0 <? temp) eqn:E; [apply Z.ltb_lt in E; lia | reflexivity].
Qed.

(** On a positive [temp] the loop counts its binary digits. *)
Lemma segment_loop_log2 (fuel : nat) :
  forall segment temp,
    0 < temp -> Go.is_int16 temp -> Z.log2 temp < Z.of_nat fuel ->
    fst (segment_loop fuel segment temp) = segment + Z.log2 temp + 1.
Proof.
  induction fuel as [|fuel IH]; intros segment temp Hpos Hr Hfuel.
  - pose proof (Z.log2_nonneg temp). lia.
  - cbn [segment_loop].
    assert (E : (0 <? temp) = true) by (apply Z.ltb_lt; exact Hpos).
    rewrite E, halve_int16 by assumption.
    destruct (Z.eq_dec temp 1) as [->|Hne].
    + change (1 / 2) with 0. rewrite segment_loop_stops by lia.
      simpl. lia.
    + assert (Hhalf : 0 < temp / 2) by lia.
      assert (Hlog : Z.log2 (temp / 2) = Z.log2 temp - 1).
      { rewrite <- Z.div2_div, Z.div2_spec, Z.log2_shiftr by lia.
        assert (1 <= Z.log2 temp)
          by (change 1 with (Z.log2 2) at 1; apply Z.log2_le_mono; lia).
        lia. }
      rewrite IH.
      * rewrite Hlog. lia.
      * exact Hhalf.
      * unfold Go.is_int16 in *. lia.
      * rewrite Hlog. lia.
Qed.

(** The clipped segment of a biased magnitude. *)
Lemma segment_closed_form (pcm : Z) :
  33 <= pcm <= 32767 ->
  (if 7 <? fst (segment_loop segment_fuel 0 (Go.int16 (Z.shiftr pcm 7)))
   then 7
   else fst (segment_loop segment_fuel 0 (Go.int16 (Z.shiftr pcm 7)))) =
  Z.min 7 (Z.max 0 (Z.log2 pcm - 6)).
Proof.
  intros Hr.
  rewrite Z.shiftr_div_pow2 by lia. change (2 ^ 7) with 128.
  rewrite int16_id by (unfold Go.is_int16; lia).
  assert (Hlog15 : Z.log2 pcm < 15)
    by (apply Z.log2_lt_pow2; [lia | change (2 ^ 15) with 32768; lia]).
  destruct (Z_lt_le_dec pcm 128) as [Hsmall|Hbig].
  - rewrite Z.div_small by lia.
    rewrite segment_loop_stops by lia. simpl fst.
    assert (Z.log2 pcm < 7)
      by (apply Z.log2_lt_pow2; [lia | change (2 ^ 7) with 128; lia]).
    change (7 <? 0) with false. cbv iota. lia.
  - assert (Hlog7 : 7 <= Z.log2 pcm)
      by (change 7 with (Z.log2 128) at 1; apply Z.log2_le_mono; lia).
    assert (Hlog : Z.log2 (pcm / 128) = Z.log2 pcm - 7).
    { change 128 with (2 ^ 7). rewrite <- Z.shiftr_div_pow2 by lia.
      rewrite Z.log2_shiftr by lia. lia. }
    rewrite segment_loop_log2.
    + rewrite Hlog.
      destruct (7 <? 0 + (Z.log2 pcm - 7) + 1) eqn:E;
        [apply Z.ltb_lt in E | apply Z.ltb_ge in E]; lia.
    + lia.
    + unfold Go.is_int16. lia.
    + rewrite Hlog. unfold segment_fuel. lia.
Qed.

(** ** Packing the fields *)

Lemma lor_disjoint_add (a b : Z) : Z.land a b = 0 -> Z.lor a b = a + b.
Proof. intros Hd. rewrite <- Z.add_lor_land, Hd. lia. Qed.

Lemma pack_segment_quantization (segment quantization : Z) :
  0 <= segment <= 7 -> 0 <= quantization <= 15 ->
  Z.lor (Go.byte (Z.shiftl segment 4)) (Go.byte quantization) =
  16 * segment + quantization.
Proof.
  intros Hs Hq. unfold Go.byte.
  rewrite Z.shiftl_mul_pow2 by lia. change (2 ^ 4) with 16.
  rewrite !Z.mod_small by lia.
  rewrite lor_disjoint_add; [lia|].
  apply Z.bits_inj'. intros n Hn. rewrite Z.land_spec, Z.bits_0.
  destruct (Z_lt_le_dec n 4) as [Hlow|Hhigh].
  - replace (segment * 16) with (segment * 2 ^ 4) by lia.
    rewrite Z.mul_pow2_bits_low by lia. reflexivity.
  - rewrite <- (Z.mod_small quantization (2 ^ 4))
      by (change (2 ^ 4) with 16; lia).
    rewrite Z.mod_pow2_bits_high by lia. apply andb_false_r.
Qed.

Lemma set_sign_bit (b : Z) : 0 <= b <= 127 -> Z.lor b 128 = b + 128.
Proof.
  intros Hb. apply lor_disjoint_add.
  apply Z.bits_inj'. intros n Hn. rewrite Z.land_spec, Z.bits_0.
  destruct (Z.eq_dec n 7) as [->|Hne].
  - rewrite <- (Z.mod_small b (2 ^ 7)) by (change (2 ^ 7) with 128; lia).
    rewrite Z.mod_pow2_bits_high by lia. reflexivity.
  - change 128 with (2 ^ 7). rewrite Z.pow2_bits_false by lia.
    apply andb_false_r.
Qed.

Lemma land_15_range (x : Z) : 0 <= Z.land x 15 <= 15.
Proof.
  change 15 with (Z.ones 4) at 1 2. rewrite Z.land_ones by lia.
  change (2 ^ 4) with 16. lia.
Qed.

Lemma pcmToULaw_composed (s : Z) :
  pcmToULaw s = Go.not8 (composed (s <? 0) (biased s)).
Proof. reflexivity. Qed.

Lemma pcmToALaw_composed (s : Z) :
  pcmToALaw s = Z.lxor (composed (s <? 0) (biased s)) 85.
Proof. reflexivity. Qed.

Lemma not8_byte (b : Z) : Go.is_byte b -> Go.not8 b = 255 - b.
Proof.
  intros Hb. unfold Go.not8.
  assert (Hsum : Z.lxor b 255 + b = 255).
  { rewrite <- lor_disjoint_add.
    - apply Z.bits_inj'. intros n Hn.
      rewrite Z.lor_spec, Z.lxor_spec.
      apply is_byte_land in Hb. rewrite <- Hb. rewrite Z.land_spec.
      destruct (Z.testbit b n), (Z.testbit 255 n); reflexivity.
    - apply Z.bits_inj'. intros n Hn.
      rewrite Z.land_spec, Z.lxor_spec, Z.bits_0.
      apply is_byte_land in Hb. rewrite <- Hb. rewrite Z.land_spec.
      destruct (Z.testbit b n), (Z.testbit 255 n); reflexivity. }
  lia.
Qed.

Lemma composed_fields (sign : bool) (pcm : Z) :
  33 <= pcm <= 32767 -> composed sign pcm = fields sign pcm.
Proof.
  intros Hr. unfold composed, fields. cbv zeta.
  rewrite segment_closed_form by exact Hr.
  set (segment := Z.min 7 (Z.max 0 (Z.log2 pcm - 6))).
  assert (Hseg : 0 <= segment <= 7) by (unfold segment; lia).
  assert (Hshift : Go.int16 (Z.shiftr pcm (segment + 3)) =
                   Z.shiftr pcm (segment + 3)).
  { apply int16_id. rewrite Z.shiftr_div_pow2 by lia.
    assert (0 < 2 ^ (segment + 3)) by (apply Z.pow_pos_nonneg; lia).
    assert (0 <= pcm / 2 ^ (segment + 3)) by (apply Z.div_pos; lia).
    assert (pcm / 2 ^ (segment + 3) <= pcm)
      by (apply Z.div_le_upper_bound; nia).
    unfold Go.is_int16. lia. }
  rewrite Hshift.
  pose proof (land_15_range (Z.shiftr pcm (segment + 3))) as Hq.
  rewrite pack_segment_quantization by assumption.
  destruct sign; [rewrite set_sign_bit|]; lia.
Qed.

Lemma biased_abs (s : Z) : -32734 <= s <= 32734 -> biased s = Z.abs s + 33.
Proof.
  intros Hr. unfold biased.
  destruct (s <? 0) eqn:E;
    [apply Z.ltb_lt in E | apply Z.ltb_ge in E].
  - rewrite int16_neg by (unfold Go.is_int16; lia).
    rewrite int16_id by (unfold Go.is_int16; lia). lia.
  - rewrite int16_id by (unfold Go.is_int16; lia). lia.
Qed.

Lemma fields_byte (negative : bool) (pcm : Z) :
  Go.is_byte (fields negative pcm).
Proof.
  unfold fields. cbv zeta.
  pose proof (land_15_range
    (Z.shiftr pcm (Z.min 7 (Z.max 0 (Z.log2 pcm - 6)) + 3))).
  unfold Go.is_byte. destruct negative; lia.
Qed.

(** X1: The bytes in closed form: for a sample of magnitude at most 32734,
    the mu-law byte is the complement of sign bit, segment and
    quantization of the biased magnitude, where the segment is
    [min 7 (max 0 (log2 (|s| + 33) - 6))], and the A-law byte is the same
    fields XORed with 0x55. *)
Theorem companding_closed_form (s : Z) :
  -32734 <= s <= 32734 ->
  pcmToULaw s = 255 - fields (s <? 0) (Z.abs s + 33) /\
  pcmToALaw s = Z.lxor (fields (s <? 0) (Z.abs s + 33)) 85.
Proof.
  intros Hr.
  rewrite pcmToULaw_composed, pcmToALaw_composed, biased_abs by exact Hr.
  rewrite composed_fields by lia.
  split; [|reflexivity].
  apply not8_byte, fields_byte.
Qed.

Lemma companding_closed_form_witness :
  pcmToULaw (-1000) = 255 - fields (-1000 <? 0) (Z.abs (-1000) + 33) /\
  pcmToALaw (-1000) = Z.lxor (fields (-1000 <? 0) (Z.abs (-1000) + 33)) 85.
Proof. apply (companding_closed_form (-1000)). lia. Defined.

(** ** A sample and its negation *)

Lemma composed_bit7 (pcm : Z) : Z.testbit (composed false pcm) 7 = false.
Proof.
  unfold composed. cbv zeta.
  assert (Hseg := clipped_segment _
    (segment_loop_nonneg segment_fuel 0 (Go.int16 (Z.shiftr pcm 7))
       (Z.le_refl 0))).
  rewrite Z.lor_spec, (segment_byte_bit7 _ Hseg), quantization_byte_bit7.
  reflexivity.
Qed.

Lemma composed_sign (pcm : Z) :
  composed true pcm = Z.lxor (composed false pcm) 128.
Proof.
  pose proof (composed_bit7 pcm) as Hbit.
  change (composed true pcm) with (Z.lor (composed false pcm) 128).
  apply Z.bits_inj'. intros n Hn. rewrite Z.lor_spec, Z.lxor_spec.
  destruct (Z.eq_dec n 7) as [->|Hne].
  - rewrite Hbit. reflexivity.
  - change 128 with (2 ^ 7). rewrite Z.pow2_bits_false by lia.
    now rewrite orb_false_r, xorb_false_r.
Qed.

Lemma biased_neg (s : Z) : 0 < s <= 32767 -> biased (Go.int16 (- s)) = biased s.
Proof.
  intros Hr. unfold biased.
  rewrite (int16_neg s) by (unfold Go.is_int16; lia).
  assert (E1 : (- s <? 0) = true) by (apply Z.ltb_lt; lia).
  assert (E2 : (s <? 0) = false) by (apply Z.ltb_ge; lia).
  rewrite E1, E2, Z.opp_involutive.
  rewrite (int16_id s) by (unfold Go.is_int16; lia). reflexivity.
Qed.

(** X2: Negating a sample flips bit 7 of its byte and nothing else: for every
    positive [int16] sample [s], the byte of [-s] is the byte of [s] XOR
    0x80, for mu-law and for A-law. *)
Theorem negation_flips_bit7 (s : Z) :
  0 < s <= 32767 ->
  pcmToULaw (Go.int16 (- s)) = Z.lxor (pcmToULaw s) 128 /\
  pcmToALaw (Go.int16 (- s)) = Z.lxor (pcmToALaw s) 128.
Proof.
  intros Hr.
  rewrite !pcmToULaw_composed, !pcmToALaw_composed, biased_neg by exact Hr.
  rewrite (int16_neg s) by (unfold Go.is_int16; lia).
  assert (E1 : (- s <? 0) = true) by (apply Z.ltb_lt; lia).
  assert (E2 : (s <? 0) = false) by (apply Z.ltb_ge; lia).
  rewrite E1, E2, composed_sign. unfold Go.not8.
  split.
  - rewrite !Z.lxor_assoc. reflexivity.
  - rewrite !Z.lxor_assoc. reflexivity.
Qed.

Lemma negation_flips_bit7_witness :
  pcmToULaw (Go.int16 (- 32767)) = Z.lxor (pcmToULaw 32767) 128 /\
  pcmToALaw (Go.int16 (- 32767)) = Z.lxor (pcmToALaw 32767) 128.
Proof. apply (negation_flips_bit7 32767). lia. Defined.

(** ** The loudest samples *)

(** X3: Adding the bias of 33 overflows [int16] for magnitudes above 32734:
    for each of the 67 samples with [|s| >= 32735] the segment bits of
    both bytes are 0, the segment of magnitudes below 95. *)
Theorem bias_overflow_segment_0 (s : Z) :
  Go.is_int16 s -> 32735 <= Z.abs s ->
  Z.land (Go.not8 (pcmToULaw s)) 112 = 0 /\
  Z.land (Z.lxor (pcmToALaw s) 85) 112 = 0.
Proof.
  intros Hr Hbig.
  set (p := fun s =>
         (Z.land (Go.not8 (pcmToULaw s)) 112 =? 0) &&
         (Z.land (Z.lxor (pcmToALaw s) 85) 112 =? 0)).
  assert (Hp : p s = true).
  { unfold Go.is_int16 in Hr.
    destruct (Z_lt_le_dec s 0) as [Hneg|Hpos].
    - apply (forall_from_spec 34 (-32768) p); [vm_compute; reflexivity|].
      lia.
    - apply (forall_from_spec 33 32735 p); [vm_compute; reflexivity|].
      lia. }
  unfold p in Hp. apply andb_true_iff in Hp. destruct Hp as [Hu Ha].
  split; apply Z.eqb_eq; assumption.
Qed.

Lemma bias_overflow_segment_0_witness :
  Z.land (Go.not8 (pcmToULaw 32767)) 112 = 0 /\
  Z.land (Z.lxor (pcmToALaw 32767) 85) 112 = 0.
Proof.
  apply (bias_overflow_segment_0 32767); [unfold Go.is_int16|]; lia.
Defined.

(** ** Clipping the segment *)

Lemma fields_wrap (negative : bool) (pcm : Z) :
  24576 <= pcm <= 32767 ->
  fields negative pcm = fields negative (pcm - 16384).
Proof.
  intros Hr. unfold fields. cbv zeta.
  assert (H14 : 14 <= Z.log2 pcm)
    by (change 14 with (Z.log2 16384) at 1; apply Z.log2_le_mono; lia).
  assert (H13 : 13 <= Z.log2 (pcm - 16384))
    by (change 13 with (Z.log2 8192) at 1; apply Z.log2_le_mono; lia).
  replace (Z.min 7 (Z.max 0 (Z.log2 pcm - 6))) with 7 by lia.
  replace (Z.min 7 (Z.max 0 (Z.log2 (pcm - 16384) - 6))) with 7 by lia.
  change (7 + 3) with 10.
  rewrite !Z.shiftr_div_pow2 by lia. change (2 ^ 10) with 1024.
  change 15 with (Z.ones 4). rewrite !Z.land_ones by lia.
  change (2 ^ 4) with 16.
  replace (pcm / 1024) with ((pcm - 16384) / 1024 + 1 * 16) by lia.
  rewrite Z.mod_add by lia. reflexivity.
Qed.

(** X4: Because the segment is clipped to 7 while the quantization keeps four
    bits, magnitudes from 24543 to 32734 get the bytes of the magnitudes
    16384 below them, for either sign and for both transforms. *)
Theorem clipped_segment_wraps (s : Z) :
  24543 <= s <= 32734 ->
  pcmToULaw s = pcmToULaw (s - 16384) /\
  pcmToALaw s = pcmToALaw (s - 16384) /\
  pcmToULaw (- s) = pcmToULaw (- (s - 16384)) /\
  pcmToALaw (- s) = pcmToALaw (- (s - 16384)).
Proof.
  intros Hr.
  rewrite !pcmToULaw_composed, !pcmToALaw_composed.
  rewrite !biased_abs by lia.
  replace (Z.abs (- s)) with s by lia.
  replace (Z.abs (- (s - 16384))) with (s - 16384) by lia.
  replace (Z.abs s) with s by lia.
  replace (Z.abs (s - 16384)) with (s - 16384) by lia.
  replace (s - 16384 + 33) with (s + 33 - 16384) by lia.
  rewrite !composed_fields by lia.
  assert (E1 : (s <? 0) = false) by (apply Z.ltb_ge; lia).
  assert (E2 : (s - 16384 <? 0) = false) by (apply Z.ltb_ge; lia).
  assert (E3 : (- s <? 0) = true) by (apply Z.ltb_lt; lia).
  assert (E4 : (- (s - 16384) <? 0) = true) by (apply Z.ltb_lt; lia).
  rewrite E1, E2, E3, E4.
  rewrite (fields_wrap false (s + 33)), (fields_wrap true (s + 33)) by lia.
  repeat split; reflexivity.
Qed.

Lemma clipped_segment_wraps_witness :
  pcmToULaw 30000 = pcmToULaw (30000 - 16384) /\
  pcmToALaw 30000 = pcmToALaw (30000 - 16384) /\
  pcmToULaw (- 30000) = pcmToULaw (- (30000 - 16384)) /\
  pcmToALaw (- 30000) = pcmToALaw (- (30000 - 16384)).
Proof. apply (clipped_segment_wraps 30000). lia. Defined.

(** ** The stateless encoders on any sink *)

Ltac encode_app_step IH :=
  simpl;
  match goal with
  | |- context [Write ?w ?p] =>
      destruct (Write w p) as [? [?|]]; [reflexivity | apply IH]
  end.

(** X5: Encoding is sample by sample with no state carried over: encoding a
    concatenation is encoding the first part and, unless that failed,
    the second part into the sink it left; a failure in the first part is
    the result and the second part is never written. *)
Theorem Encode_app {W : Type} `{io_Writer W} (s1 s2 : list Z) (w : W) :
  ULawEncoder_Encode (s1 ++ s2) w =
    (match ULawEncoder_Encode s1 w with
     | (w', None) => ULawEncoder_Encode s2 w'
     | failed => failed
     end) /\
  ALawEncoder_Encode (s1 ++ s2) w =
    (match ALawEncoder_Encode s1 w with
     | (w', None) => ALawEncoder_Encode s2 w'
     | failed => failed
     end) /\
  SLINEncoder_Encode (s1 ++ s2) w =
    (match SLINEncoder_Encode s1 w with
     | (w', None) => SLINEncoder_Encode s2 w'
     | failed => failed
     end).
Proof.
  split; [|split]; revert w; induction s1 as [|s s1 IH]; intros w;
    try reflexivity; encode_app_step IH.
Qed.

Ltac first_failure_step IH s :=
  simpl;
  match goal with
  | |- context [Write ?w ?p] =>
      let w1 := fresh "w1" in
      let e := fresh "e" in
      let E := fresh "E" in
      destruct (Write w p) as [w1 [e|]] eqn:E; intros Hrun;
      [ injection Hrun as <- <-;
        exists [], s; eexists; exists w;
        split; [reflexivity | split; [reflexivity | exact E]]
      | destruct (IH w1 Hrun) as (done & s' & rest & w0 & -> & Hdone & Hfail);
        exists (s :: done), s', rest, w0;
        split; [reflexivity
               | split; [simpl; rewrite E; exact Hdone | exact Hfail]] ]
  end.

(** X6: An encoder that returns an error stopped at the first write the sink
    refused: the samples before it were written one [Write] each, the
    error is the sink's own error, unwrapped, the sink is left as that
    write left it, and no later sample was written. *)
Theorem Encode_first_failure {W : Type} `{io_Writer W}
  (samples : list Z) (w w' : W) (err : error) :
  (ULawEncoder_Encode samples w = (w', Some err) ->
   exists done sample rest w0,
     samples = done ++ sample :: rest /\
     ULawEncoder_Encode done w = (w0, None) /\
     Write w0 [pcmToULaw sample] = (w', Some err)) /\
  (ALawEncoder_Encode samples w = (w', Some err) ->
   exists done sample rest w0,
     samples = done ++ sample :: rest /\
     ALawEncoder_Encode done w = (w0, None) /\
     Write w0 [pcmToALaw sample] = (w', Some err)) /\
  (SLINEncoder_Encode samples w = (w', Some err) ->
   exists done sample rest w0,
     samples = done ++ sample :: rest /\
     SLINEncoder_Encode done w = (w0, None) /\
     Write w0 (slin_bytes sample) = (w', Some err)).
Proof.
  split; [|split]; revert w; induction samples as [|s samples IH]; intros w;
    try (simpl; discriminate); first_failure_step IH s.
Qed.

Lemma Encode_first_failure_witness :
  exists done sample rest w0,
    [0; 100; -100] = done ++ sample :: rest /\
    ULawEncoder_Encode done {| stored := []; room := 2 |} = (w0, None) /\
    Write w0 [pcmToULaw sample] =
      ({| stored := [251; 231]; room := 0 |}, Some (External "short write")).
Proof.
  apply (proj1 (Encode_first_failure [0; 100; -100]
                  {| stored := []; room := 2 |}
                  {| stored := [251; 231]; room := 0 |}
                  (External "short write"))).
  reflexivity.
Defined.

(** ** G.729 encoding on any codec and any sink *)

Section G729Any.
Context {Ctx W : Type} `{io_Writer W}.
Variable codec : Ctx -> list Z -> Ctx * list Z * Z.
Variable samples : list Z.

Lemma encode_frames_returns (fuel : nat) :
  forall i ctx w sent,
    (length samples - i < fuel)%nat ->
    exists r, G729_cgo.encode_frames codec fuel i samples ctx w sent = Some r.
Proof.
  induction fuel as [|fuel IH]; intros i ctx w sent Hfuel; [lia|].
  cbn [G729_cgo.encode_frames].
  destruct (i <? length samples)%nat eqn:Ei; [|eexists; reflexivity].
  apply Nat.ltb_lt in Ei.
  assert (Hnext : (length samples - (i + G729_cgo.frameSize) < fuel)%nat)
    by (unfold G729_cgo.frameSize; lia).
  destruct (codec ctx _) as [[ctx' stored] n].
  destruct (0 <? n); [|apply IH; exact Hnext].
  destruct (n <=? 10); [|eexists; reflexivity].
  destruct (Write w _) as [w1 [err|]]; [eexists; reflexivity|].
  apply IH; exact Hnext.
Qed.

(** How the loop can end when the codec keeps to 10 bytes: with a nil
    error, or with a sink error wrapped by the G.729 text; it does not
    panic. *)
Lemma encode_frames_outcomes (fuel : nat) :
  (forall ctx frame, snd (codec ctx frame) <= 10) ->
  forall i ctx w sent r,
    G729_cgo.encode_frames codec fuel i samples ctx w sent = Some r ->
    G729_cgo.result r = Returned None \/
    exists cause w0 p,
      G729_cgo.result r =
        Returned (Some (Wrapf "failed to write G.729 data" cause)) /\
      Write w0 p = (G729_cgo.sink r, Some cause).
Proof.
  intros Hrep.
  induction fuel as [|fuel IH]; intros i ctx w sent r Hrun; [discriminate|].
  cbn [G729_cgo.encode_frames] in Hrun.
  destruct (i <? length samples)%nat;
    [|injection Hrun as <-; left; reflexivity].
  pose proof (Hrep ctx
    (Go.copy (repeat 0 G729_cgo.frameSize) (skipn i samples))) as Hn.
  destruct (codec ctx _) as [[ctx' stored] n]. simpl in Hn.
  destruct (0 <? n); [|exact (IH _ _ _ _ _ Hrun)].
  destruct (n <=? 10) eqn:En; [|apply Z.leb_gt in En; lia].
  destruct (Write w _) as [w1 [err|]] eqn:Ew; [|exact (IH _ _ _ _ _ Hrun)].
  injection Hrun as <-. right.
  exists err, w. eexists. split; [reflexivity | exact Ew].
Qed.

End G729Any.

Lemma encode_frames_panic {Ctx W : Type} `{io_Writer W}
  (codec : Ctx -> list Z -> Ctx * list Z * Z) (samples : list Z)
  (fuel : nat) :
  forall i ctx w sent r,
    G729_cgo.encode_frames codec fuel i samples ctx w sent = Some r ->
    G729_cgo.result r = Panicked ->
    exists ctx' frame, 10 < snd (codec ctx' frame).
Proof.
  induction fuel as [|fuel IH]; intros i ctx w sent r Hrun Hres;
    [discriminate Hrun|].
  cbn [G729_cgo.encode_frames] in Hrun.
  destruct (i <? length samples)%nat;
    [|injection Hrun as <-; discriminate Hres].
  destruct (codec ctx
              (Go.copy (repeat 0 G729_cgo.frameSize) (skipn i samples)))
    as [[ctx' stored] n] eqn:Ec.
  destruct (0 <? n); [|exact (IH _ _ _ _ _ Hrun Hres)].
  destruct (n <=? 10) eqn:En.
  - destruct (Write w _) as [w1 [err|]]; [|exact (IH _ _ _ _ _ Hrun Hres)].
    injection Hrun as <-. discriminate Hres.
  - apply Z.leb_gt in En. exists ctx. eexists. rewrite Ec. exact En.
Qed.

(** X7: The frame loop of [Encode] ends on every input: whatever the native
    codec reports and whatever the sink answers, the call comes to an end
    within the iterations that the length of the samples allows, by
    returning or by panicking; and it panics only when some call of the
    codec reported more than 10 bytes, the size of the array that is
    sliced by the length reported. *)
Theorem G729_Encode_ends {Ctx W : Type} `{io_Writer W}
  (codec : Ctx -> list Z -> Ctx * list Z * Z)
  (e : G729_cgo.G729Encoder Ctx) (samples : list Z) (w : W) :
  exists r,
    G729_cgo.Encode codec e samples w = Some r /\
    (G729_cgo.result r = Panicked ->
     exists ctx frame, 10 < snd (codec ctx frame)).
Proof.
  unfold G729_cgo.Encode. destruct (G729_cgo.encoder e) as [ctx|].
  - destruct (encode_frames_returns codec samples (S (length samples)) 0 ctx
                w []) as [r Hrun]; [lia|].
    exists r. split; [exact Hrun|].
    exact (encode_frames_panic codec samples _ _ _ _ _ _ Hrun).
  - eexists. split; [reflexivity|]. discriminate.
Qed.

Lemma G729_Encode_ends_witness :
  exists ctx frame, 10 < snd (Samples.greedy_codec ctx frame).
Proof.
  destruct (G729_Encode_ends Samples.greedy_codec
              {| G729_cgo.encoder := Some tt |} Samples.three ([] : Buffer))
    as (r & Hrun & Hpanic).
  apply Hpanic. vm_compute in Hrun. injection Hrun as <-. reflexivity.
Defined.

(** X8: When the native codec never reports more than 10 bytes, [Encode] does
    not panic on any sink: it returns nil, or [encoder not initialized]
    having submitted and written nothing, or the error of a refused write
    wrapped under [failed to write G.729 data], the sink being left as
    that write left it. *)
Theorem G729_Encode_outcomes {Ctx W : Type} `{io_Writer W}
  (codec : Ctx -> list Z -> Ctx * list Z * Z)
  (e : G729_cgo.G729Encoder Ctx) (samples : list Z) (w : W)
  (r : G729_cgo.run Ctx W) :
  (forall ctx frame, snd (codec ctx frame) <= 10) ->
  G729_cgo.Encode codec e samples w = Some r ->
  G729_cgo.result r = Returned None \/
  (G729_cgo.encoder e = None /\
   G729_cgo.result r = Returned (Some (Errorf "encoder not initialized")) /\
   G729_cgo.submitted r = [] /\ G729_cgo.sink r = w) \/
  (exists cause w0 p,
     G729_cgo.result r =
       Returned (Some (Wrapf "failed to write G.729 data" cause)) /\
     Write w0 p = (G729_cgo.sink r, Some cause)).
Proof.
  intros Hrep Hrun. unfold G729_cgo.Encode in Hrun.
  destruct (G729_cgo.encoder e) as [ctx|] eqn:Ee.
  - destruct (encode_frames_outcomes codec samples _ Hrep _ _ _ _ _ Hrun)
      as [Hok | Hfail].
    + left. exact Hok.
    + right. right. exact Hfail.
  - injection Hrun as <-. right. left. repeat split.
Qed.

Lemma G729_Encode_outcomes_witness :
  match G729_cgo.Encode Samples.toy_codec {| G729_cgo.encoder := Some tt |}
          Samples.three {| stored := []; room := 4 |} with
  | Some r =>
      G729_cgo.result r = Returned None \/
      (Some tt = None /\
       G729_cgo.result r =
         Returned (Some (Errorf "encoder not initialized")) /\
       G729_cgo.submitted r = [] /\
       G729_cgo.sink r = {| stored := []; room := 4 |}) \/
      (exists cause w0 p,
         G729_cgo.result r =
           Returned (Some (Wrapf "failed to write G.729 data" cause)) /\
         Write w0 p = (G729_cgo.sink r, Some cause))
  | None => False
  end.
Proof.
  destruct (G729_cgo.Encode Samples.toy_codec
              {| G729_cgo.encoder := Some tt |} Samples.three
              {| stored := []; room := 4 |}) as [r|] eqn:Hr.
  - exact (G729_Encode_outcomes Samples.toy_codec
             {| G729_cgo.encoder := Some tt |} Samples.three
             {| stored := []; room := 4 |} r toy_codec_reports Hr).
  - vm_compute in Hr. discriminate Hr.
Defined.

(** ** G.729 encoding on an accepting sink *)

Section G729Sizes.
Context {Ctx W : Type} `{io_Writer W}.
Variable codec : Ctx -> list Z -> Ctx * list Z * Z.
Variable written : W -> list Z.
Hypothesis accepting : accepts_all written.
Variable samples : list Z.

Lemma output_array_length (stored : list Z) :
  length (Go.copy (repeat 0 10%nat) stored) = 10%nat.
Proof. now rewrite copy_length, repeat_length. Qed.

(** At most 10 bytes reach the sink for each frame handed over. *)
Lemma encode_frames_at_most_10 (fuel : nat) :
  forall i ctx w sent r,
    G729_cgo.encode_frames codec fuel i samples ctx w sent = Some r ->
    (length (written (G729_cgo.sink r)) + 10 * length sent <=
     length (written w) + 10 * length (G729_cgo.submitted r))%nat.
Proof.
  induction fuel as [|fuel IH]; intros i ctx w sent r Hrun; [discriminate|].
  cbn [G729_cgo.encode_frames] in Hrun.
  destruct (i <? length samples)%nat;
    [|injection Hrun as <-; simpl; lia].
  destruct (codec ctx _) as [[ctx' stored] n].
  destruct (0 <? n).
  - destruct (n <=? 10); [|injection Hrun as <-; simpl; rewrite length_app;
                           simpl; lia].
    destruct (accepted_write written accepting w
                (firstn (Z.to_nat n) (Go.copy (repeat 0 10%nat) stored)))
      as (w1 & Ew & Hw1).
    rewrite Ew in Hrun. apply IH in Hrun.
    rewrite Hw1, !length_app, length_firstn, output_array_length in Hrun.
    simpl length in Hrun. lia.
  - apply IH in Hrun. rewrite length_app in Hrun. simpl length in Hrun. lia.
Qed.

(** With a codec that reports 10 bytes for every frame, exactly 10 bytes
    reach the sink for each frame. *)
Lemma encode_frames_exactly_10 (fuel : nat) :
  (forall ctx frame, snd (codec ctx frame) = 10) ->
  forall i ctx w sent r,
    G729_cgo.encode_frames codec fuel i samples ctx w sent = Some r ->
    (length (written (G729_cgo.sink r)) + 10 * length sent =
     length (written w) + 10 * length (G729_cgo.submitted r))%nat.
Proof.
  intros Hten.
  induction fuel as [|fuel IH]; intros i ctx w sent r Hrun; [discriminate|].
  cbn [G729_cgo.encode_frames] in Hrun.
  destruct (i <? length samples)%nat;
    [|injection Hrun as <-; simpl; lia].
  pose proof (Hten ctx
    (Go.copy (repeat 0 G729_cgo.frameSize) (skipn i samples))) as Hn.
  destruct (codec ctx _) as [[ctx' stored] n]. simpl in Hn. subst n.
  change (0 <? 10) with true in Hrun. change (10 <=? 10) with true in Hrun.
  cbv iota in Hrun.
  destruct (accepted_write written accepting w
              (firstn (Z.to_nat 10) (Go.copy (repeat 0 10%nat) stored)))
    as (w1 & Ew & Hw1).
  rewrite Ew in Hrun. apply IH in Hrun.
  rewrite Hw1, !length_app, length_firstn, output_array_length in Hrun.
  simpl length in Hrun. change (Z.to_nat 10) with 10%nat in Hrun. lia.
Qed.

End G729Sizes.

(** X9: Framing for every length: with an initialised encoder, a codec within
    10 bytes and an accepting sink, [Encode] returns nil having handed
    over [ceil (N / 80)] frames of 80 samples that spell the N samples
    followed by the zeros that fill the last frame; when N is a multiple
    of 80 (N = 0 included) the frames spell the samples with nothing
    added.  These frames are what the codec is called with: the context
    left in the encoder is the one that calling the codec on them in
    order leads to, and the sink has received the bytes taken from those
    calls. *)
Theorem G729_frames_any_length {Ctx W : Type} `{io_Writer W}
  (codec : Ctx -> list Z -> Ctx * list Z * Z) (written : W -> list Z)
  (e : G729_cgo.G729Encoder Ctx) (ctx : Ctx) (samples : list Z) (w : W) :
  accepts_all written ->
  (forall ctx frame, snd (codec ctx frame) <= 10) ->
  G729_cgo.encoder e = Some ctx ->
  exists r,
    G729_cgo.Encode codec e samples w = Some r /\
    G729_cgo.result r = Returned None /\
    Forall (fun frame => length frame = 80%nat) (G729_cgo.submitted r) /\
    length (G729_cgo.submitted r) = ((length samples + 79) / 80)%nat /\
    concat (G729_cgo.submitted r) =
      samples ++ repeat 0 (padding (length samples)) /\
    ((length samples mod 80 = 0)%nat ->
     concat (G729_cgo.submitted r) = samples) /\
    G729_cgo.self r =
      {| G729_cgo.encoder :=
           Some (fst (encoder_calls codec ctx (G729_cgo.submitted r))) |} /\
    written (G729_cgo.sink r) =
      written w ++ snd (encoder_calls codec ctx (G729_cgo.submitted r)).
Proof.
  intros Hacc Hrep Henc.
  unfold G729_cgo.Encode. rewrite Henc.
  destruct (encode_frames_padded codec written Hacc Hrep samples
              (S (length samples)) 0 ctx w [])
    as (r & new & Hrun & Hres & Hsub & Hlen & Hcat); [lia|].
  destruct (encode_frames_calls codec written Hacc samples _ _ _ _ _ _
              Hrun Hres) as (called & Hcalled & Hself & Hsink).
  simpl in Hsub, Hcalled. rewrite <- Hsub in Hlen, Hcat.
  rewrite <- Hcalled in Hself, Hsink.
  rewrite Nat.sub_0_r in Hcat. simpl skipn in Hcat.
  pose proof (length_concat_frames _ Hlen) as Hsize.
  rewrite Hcat, length_app, repeat_length in Hsize.
  exists r. split; [exact Hrun|]. split; [exact Hres|].
  split; [exact Hlen|]. split; [|split; [exact Hcat|]].
  - unfold padding in Hsize. lia.
  - split; [|split; [exact Hself | exact Hsink]].
    intros Hmod. rewrite Hcat. unfold padding. rewrite Hmod.
    change ((80 - 0) mod 80)%nat with 0%nat. simpl. apply app_nil_r.
Qed.

Lemma G729_frames_any_length_witness :
  exists r : G729_cgo.run (list (list Z)) Buffer,
    G729_cgo.Encode Samples.recording_codec {| G729_cgo.encoder := Some [] |}
      (repeat 5 160) [] = Some r /\
    G729_cgo.result r = Returned None /\
    Forall (fun frame => length frame = 80%nat) (G729_cgo.submitted r) /\
    length (G729_cgo.submitted r) = ((length (repeat 5 160) + 79) / 80)%nat /\
    concat (G729_cgo.submitted r) =
      repeat 5 160 ++ repeat 0 (padding (length (repeat 5 160))) /\
    ((length (repeat 5 160) mod 80 = 0)%nat ->
     concat (G729_cgo.submitted r) = repeat 5 160) /\
    G729_cgo.self r =
      {| G729_cgo.encoder :=
           Some (fst (encoder_calls Samples.recording_codec []
                        (G729_cgo.submitted r))) |} /\
    G729_cgo.sink r =
      [] ++ snd (encoder_calls Samples.recording_codec []
                   (G729_cgo.submitted r)).
Proof.
  exact (G729_frames_any_length Samples.recording_codec
           (fun buf : Buffer => buf) {| G729_cgo.encoder := Some [] |} []
           (repeat 5 160) [] Buffer_accepts_all recording_codec_reports
           eq_refl).
Defined.

(** X10: Output size: on an accepting sink [Encode] appends at most 10 bytes
    per frame handed to the codec, and exactly 10 per frame when the
    codec reports 10 for every frame. *)
Theorem G729_output_size {Ctx W : Type} `{io_Writer W}
  (codec : Ctx -> list Z -> Ctx * list Z * Z) (written : W -> list Z)
  (e : G729_cgo.G729Encoder Ctx) (samples : list Z) (w : W)
  (r : G729_cgo.run Ctx W) :
  accepts_all written ->
  G729_cgo.Encode codec e samples w = Some r ->
  (length (written (G729_cgo.sink r)) <=
   length (written w) + 10 * length (G729_cgo.submitted r))%nat /\
  ((forall ctx frame, snd (codec ctx frame) = 10) ->
   length (written (G729_cgo.sink r)) =
   (length (written w) + 10 * length (G729_cgo.submitted r))%nat).
Proof.
  intros Hacc Hrun. unfold G729_cgo.Encode in Hrun.
  destruct (G729_cgo.encoder e) as [ctx|].
  - split.
    + pose proof (encode_frames_at_most_10 codec written Hacc samples
                    _ _ _ _ _ _ Hrun) as Hle.
      simpl in Hle. lia.
    + intros Hten.
      pose proof (encode_frames_exactly_10 codec written Hacc samples
                    _ Hten _ _ _ _ _ Hrun) as Heq.
      simpl in Heq. lia.
  - injection Hrun as <-. simpl. split; [lia | intros _; lia].
Qed.

Lemma G729_output_size_witness :
  match G729_cgo.Encode Samples.toy_codec {| G729_cgo.encoder := Some tt |}
          (repeat 5 160) ([] : Buffer) with
  | Some r =>
      (length (G729_cgo.sink r) <=
       length ([] : Buffer) + 10 * length (G729_cgo.submitted r))%nat /\
      ((forall ctx frame, snd (Samples.toy_codec ctx frame) = 10) ->
       length (G729_cgo.sink r) =
       (length ([] : Buffer) + 10 * length (G729_cgo.submitted r))%nat)
  | None => False
  end.
Proof.
  destruct (G729_cgo.Encode Samples.toy_codec
              {| G729_cgo.encoder := Some tt |} (repeat 5 160)
              ([] : Buffer)) as [r|] eqn:Hr.
  - exact (G729_output_size Samples.toy_codec (fun buf : Buffer => buf)
             {| G729_cgo.encoder := Some tt |} (repeat 5 160) [] r
             Buffer_accepts_all Hr).
  - vm_compute in Hr. discriminate Hr.
Defined.

(** * Reading and validating the input *)

(** What the header checks of [ReadWAVSamples] let through. *)
Lemma header_checks (format : WavFormat) :
  (negb (wf_AudioFormat format =? 1) = false /\
   negb (wf_NumChannels format =? 1) = false /\
   negb (wf_SampleRate format =? 8000) = false /\
   negb (wf_BitsPerSample format =? 16) = false) <->
  (wf_AudioFormat format = 1 /\ wf_NumChannels format = 1 /\
   wf_SampleRate format = 8000 /\ wf_BitsPerSample format = 16).
Proof.
  rewrite !negb_false_iff, !Z.eqb_eq. reflexivity.
Qed.

Lemma same_error_EOF (err : error) : same_error err EOF = true -> err = EOF.
Proof. destruct err; simpl; congruence. Qed.

Lemma read_batches_all (batches : list (list Sample)) (last : error) :
  forall samples,
    read_batches batches last samples =
    if same_error last EOF
    then (samples ++
            map (fun s => Go.int16 (fst (Values s))) (concat batches), None)
    else ([], Some last).
Proof.
  induction batches as [|batch more IH]; intros samples; simpl.
  - destruct (same_error last EOF); [now rewrite app_nil_r | reflexivity].
  - rewrite IH. destruct (same_error last EOF); [|reflexivity].
    now rewrite map_app, app_assoc.
Qed.

(** X11: [ReadWAVSamples] fails closed: a nil error means that the reader was
    an [*os.File] whose header is PCM, mono, 8000 Hz, 16 bit and whose
    data ended with [io.EOF]; the samples are then channel 0 of every
    sample read, in order, converted to [int16], and the [FileInfo]
    records 16 bits, 8000 Hz, one channel, the sample count and the type
    [WAVE], with an empty path and size 0. *)
Theorem ReadWAVSamples_success (reader : io_Reader) (samples : list Z)
  (info : option FileInfo) :
  ReadWAVSamples reader = (samples, info, None) ->
  exists file format fileInfo,
    reader = os_File file /\ Format file = Ok format /\
    wf_AudioFormat format = 1 /\ wf_NumChannels format = 1 /\
    wf_SampleRate format = 8000 /\ wf_BitsPerSample format = 16 /\
    Last file = EOF /\
    samples =
      map (fun s => Go.int16 (fst (Values s))) (concat (Batches file)) /\
    Forall Go.is_int16 samples /\
    info = Some fileInfo /\
    BitDepth fileInfo = 16 /\ SampleRate fileInfo = 8000 /\
    Channels fileInfo = 1 /\
    TotalSamples fileInfo = Z.of_nat (length samples) /\
    Type_ fileInfo = "WAVE" /\ Path fileInfo = "" /\ Size fileInfo = 0.
Proof.
  intros Hrun. destruct reader as [file|name stream]; [|discriminate Hrun].
  unfold ReadWAVSamples in Hrun.
  destruct (Format file) as [format|err] eqn:Hf; [|discriminate Hrun].
  destruct (negb (wf_AudioFormat format =? 1)) eqn:E1; [discriminate Hrun|].
  destruct (negb (wf_NumChannels format =? 1)) eqn:E2; [discriminate Hrun|].
  destruct (negb (wf_SampleRate format =? 8000)) eqn:E3; [discriminate Hrun|].
  destruct (negb (wf_BitsPerSample format =? 16)) eqn:E4;
    [discriminate Hrun|].
  destruct (proj1 (header_checks format) (conj E1 (conj E2 (conj E3 E4))))
    as (Ha & Hc & Hr & Hb).
  rewrite read_batches_all in Hrun.
  destruct (same_error (Last file) EOF) eqn:El; [|discriminate Hrun].
  injection Hrun as <- <-. simpl app.
  exists file, format. eexists.
  split; [reflexivity|]. split; [exact Hf|].
  repeat (split; [assumption|]).
  split; [apply same_error_EOF; exact El|].
  split; [reflexivity|].
  split; [apply Forall_map, Forall_forall; intros; apply int16_range|].
  split; [reflexivity|]. simpl. rewrite Hr.
  repeat split; assumption.
Qed.

Lemma ReadWAVSamples_success_witness :
  exists file format fileInfo,
    os_File (Samples.file_with Samples.pcm_mono_8k) = os_File file /\
    Format file = Ok format /\
    wf_AudioFormat format = 1 /\ wf_NumChannels format = 1 /\
    wf_SampleRate format = 8000 /\ wf_BitsPerSample format = 16 /\
    Last file = EOF /\
    [0; 100; -100] =
      map (fun s => Go.int16 (fst (Values s))) (concat (Batches file)) /\
    Forall Go.is_int16 [0; 100; -100] /\
    snd (fst (ReadWAVSamples
                (os_File (Samples.file_with Samples.pcm_mono_8k)))) =
      Some fileInfo /\
    BitDepth fileInfo = 16 /\ SampleRate fileInfo = 8000 /\
    Channels fileInfo = 1 /\
    TotalSamples fileInfo = Z.of_nat (length [0; 100; -100]) /\
    Type_ fileInfo = "WAVE" /\ Path fileInfo = "" /\ Size fileInfo = 0.
Proof.
  apply (ReadWAVSamples_success
           (os_File (Samples.file_with Samples.pcm_mono_8k))).
  vm_compute. reflexivity.
Defined.

(** X12: Samples wider than 16 bits are truncated, not rejected, and a read
    error other than [io.EOF] discards the samples read so far: with a
    conformant header the call returns every sample of channel 0 reduced
    to [int16] when the data ends with [io.EOF], and otherwise returns
    the library's error unwrapped with no samples and no [FileInfo]. *)
Theorem ReadWAVSamples_conformant (file : File) (format : WavFormat) :
  Format file = Ok format ->
  wf_AudioFormat format = 1 -> wf_NumChannels format = 1 ->
  wf_SampleRate format = 8000 -> wf_BitsPerSample format = 16 ->
  (Last file = EOF ->
   fst (fst (ReadWAVSamples (os_File file))) =
     map (fun s => Go.int16 (fst (Values s))) (concat (Batches file)) /\
   snd (ReadWAVSamples (os_File file)) = None) /\
  (same_error (Last file) EOF = false ->
   ReadWAVSamples (os_File file) = ([], None, Some (Last file))).
Proof.
  intros Hf Ha Hc Hr Hb. unfold ReadWAVSamples.
  rewrite Hf, Ha, Hc, Hr, Hb. simpl negb. cbv iota.
  rewrite read_batches_all. split.
  - intros ->. simpl. split; reflexivity.
  - intros ->. reflexivity.
Qed.

(** ** ValidateInput *)

Lemma ReadWAVSamples_info (reader : io_Reader) (samples : list Z)
  (info : option FileInfo) :
  ReadWAVSamples reader = (samples, info, None) ->
  exists fileInfo,
    info = Some fileInfo /\ BitDepth fileInfo = 16 /\
    SampleRate fileInfo = 8000 /\ Channels fileInfo = 1.
Proof.
  intros Hrun. unfold ReadWAVSamples in Hrun.
  destruct reader as [file|]; [|discriminate Hrun].
  destruct (Format file) as [format|]; [|discriminate Hrun].
  destruct (negb (wf_AudioFormat format =? 1)) eqn:E1; [discriminate Hrun|].
  destruct (negb (wf_NumChannels format =? 1)) eqn:E2; [discriminate Hrun|].
  destruct (negb (wf_SampleRate format =? 8000)) eqn:E3; [discriminate Hrun|].
  destruct (negb (wf_BitsPerSample format =? 16)) eqn:E4;
    [discriminate Hrun|].
  destruct (proj1 (header_checks format) (conj E1 (conj E2 (conj E3 E4))))
    as (Ha & Hc & Hr & Hb).
  destruct (read_batches _ _ _) as [? [?|]]; [discriminate Hrun|].
  injection Hrun as <- <-. eexists. split; [reflexivity|].
  simpl. repeat split; assumption.
Qed.

Lemma ReadWAVSamples_conformant_witness :
  fst (fst (ReadWAVSamples (os_File Samples.wide))) = [4464; 25536] /\
  snd (ReadWAVSamples (os_File Samples.wide)) = None.
Proof.
  exact (proj1 (ReadWAVSamples_conformant Samples.wide Samples.pcm_mono_8k
                  eq_refl eq_refl eq_refl eq_refl eq_refl) eq_refl).
Defined.

(** X13: [ValidateInput] returns either a [FileInfo] and a nil error or no
    [FileInfo] and an error, never both and never neither.  The
    [FileInfo] carries the path asked for, the size [os.Stat] reported
    and 16 bits, 8000 Hz, one channel; the error is always wrapped, under
    [file not found], [failed to open file] or [invalid WAV file]. *)
Theorem ValidateInput_result
  (os_Stat : string -> result Z) (os_Open : string -> result File)
  (t : DefaultTranscoder) (inputPath : string) :
  (exists fileInfo size,
     ValidateInput os_Stat os_Open t inputPath = (Some fileInfo, None) /\
     os_Stat inputPath = Ok size /\
     Path fileInfo = inputPath /\ Size fileInfo = size /\
     BitDepth fileInfo = 16 /\ SampleRate fileInfo = 8000 /\
     Channels fileInfo = 1) \/
  (exists msg cause,
     ValidateInput os_Stat os_Open t inputPath =
       (None, Some (Wrapf msg cause)) /\
     In msg ["file not found"; "failed to open file"; "invalid WAV file"]).
Proof.
  unfold ValidateInput.
  destruct (os_Stat inputPath) as [size|err] eqn:Hstat.
  2:{ right. exists "file not found", err. split; [reflexivity|].
      simpl. auto. }
  destruct (os_Open inputPath) as [file|err] eqn:Hopen.
  2:{ right. exists "failed to open file", err. split; [reflexivity|].
      simpl. auto. }
  destruct (ReadWAVSamples (os_File file)) as [[samples info] [err|]] eqn:Hread.
  { right. exists "invalid WAV file", err.
    split; [destruct info; reflexivity|]. simpl. auto. }
  destruct (ReadWAVSamples_info _ _ _ Hread)
    as (fileInfo & -> & Hbits & Hrate & Hch).
  left. eexists. exists size. split; [reflexivity|].
  simpl. repeat split; assumption.
Qed.

(** * Releasing and decoding *)

(** X14: [Close] hands the native context to the library once: a second
    [Close] releases nothing and changes nothing, and [Encode] on a closed
    encoder returns [encoder not initialized] without calling the codec
    or touching the sink. *)
Theorem G729_use_after_Close {Ctx W : Type} `{io_Writer W}
  (codec : Ctx -> list Z -> Ctx * list Z * Z)
  (e : G729_cgo.G729Encoder Ctx) (samples : list Z) (w : W) :
  let closed := fst (G729_native.Close e) in
  G729_native.Close closed = (closed, []) /\
  (forall ctx, In ctx (snd (G729_native.Close e)) ->
               G729_cgo.encoder e = Some ctx) /\
  (length (snd (G729_native.Close e)) <= 1)%nat /\
  G729_cgo.Encode codec closed samples w =
    Some {| G729_cgo.submitted := [];
            G729_cgo.self := closed;
            G729_cgo.sink := w;
            G729_cgo.result :=
              Returned (Some (Errorf "encoder not initialized")) |}.
Proof.
  unfold G729_native.Close, G729_cgo.Encode.
  destruct e as [[ctx|]]; simpl.
  - split; [reflexivity|].
    split; [intros ctx' [<-|[]]; reflexivity|].
    split; [lia | reflexivity].
  - split; [reflexivity|].
    split; [intros ctx' []|].
    split; [lia | reflexivity].
Qed.

Lemma int16_memory_length (order : byte_order) (sample : Z) :
  length (int16_memory order sample) = 2%nat.
Proof. destruct order; reflexivity. Qed.

Lemma length_flat_map_int16_memory (order : byte_order) (output : list Z) :
  length (flat_map (int16_memory order) output) = (2 * length output)%nat.
Proof.
  induction output as [|s rest IH]; [reflexivity|].
  cbn [flat_map]. rewrite length_app, int16_memory_length, IH.
  cbn [length]. lia.
Qed.

Lemma firstn_add_skipn {A} (a k : nat) (l : list A) :
  firstn (a + k) l = firstn a l ++ firstn k (skipn a l).
Proof.
  revert l. induction a as [|a IH]; intros l; [reflexivity|].
  destruct l as [|x l]; simpl.
  - now rewrite firstn_nil.
  - now rewrite IH.
Qed.

(** The text of the error for a read of [n] bytes. *)
Lemma incomplete_frame_text :
  String.append "incomplete G.729 frame: expected 10 bytes, got "
    (NilEmpty.string_of_uint (Nat.to_uint 7)) =
  "incomplete G.729 frame: expected 10 bytes, got 7".
Proof. reflexivity. Qed.

Lemma Read_bytes_nonempty (data : bytes_Reader) (n : nat) :
  data <> [] -> Read data n = (skipn n data, (firstn n data, None)).
Proof. destruct data; [congruence | reflexivity]. Qed.

Section DecodeBytes.
Context {DCtx W : Type} `{io_Writer W}.
Variable bcg729Decoder : DCtx -> list Z -> DCtx * list Z.
Variable order : byte_order.
Variable written : W -> list Z.
Hypothesis accepting : accepts_all written.

Lemma decoder_calls_length (ctx : DCtx) (frames : list (list Z)) :
  length (snd (decoder_calls bcg729Decoder order ctx frames)) =
  (160 * length frames)%nat.
Proof.
  revert ctx. induction frames as [|frame rest IH]; intros ctx;
    [reflexivity|].
  cbn [decoder_calls]. destruct (bcg729Decoder ctx frame) as [ctx' stored].
  specialize (IH ctx').
  destruct (decoder_calls bcg729Decoder order ctx' rest) as [ctx'' bytes].
  cbn [snd length] in *.
  rewrite length_app, length_flat_map_int16_memory, copy_length,
    repeat_length, IH. lia.
Qed.

(** [Decode] on a [bytes.Reader]: every whole 10-byte frame is handed to
    the codec, whose samples reach the sink; the call ends with nil when
    no byte is left over and with the incomplete-frame error otherwise,
    and the reader is left empty. *)
Lemma decode_frames_bytes (fuel : nat) :
  forall ctx (data : bytes_Reader) w buffer given,
    length buffer = 10%nat ->
    (length data < 10 * fuel)%nat ->
    exists r new,
      G729_native.decode_frames bcg729Decoder order fuel ctx data w buffer
        given = Some r /\
      G729_native.fed r = given ++ new /\
      Forall (fun frame => length frame = 10%nat) new /\
      concat new = firstn (10 * (length data / 10)) data /\
      G729_native.d_self r =
        {| G729_native.decoder :=
             Some (fst (decoder_calls bcg729Decoder order ctx new)) |} /\
      written (G729_native.d_sink r) =
        written w ++ snd (decoder_calls bcg729Decoder order ctx new) /\
      G729_native.source r = [] /\
      G729_native.d_result r =
        (if (length data mod 10 =? 0)%nat then Returned None
         else Returned (Some (Errorf (String.append
                "incomplete G.729 frame: expected 10 bytes, got "
                (NilEmpty.string_of_uint
                   (Nat.to_uint (length data mod 10))))))).
Proof.
  induction fuel as [|fuel IH]; intros ctx data w buffer given Hbuf Hfuel;
    [lia|].
  cbn [G729_native.decode_frames]. rewrite Hbuf.
  destruct data as [|x data'].
  { cbn. eexists. exists []. rewrite !app_nil_r.
    split; [reflexivity|]. cbn.
    repeat (split; [first [reflexivity | constructor]|]). reflexivity. }
  set (data := x :: data') in *.
  assert (Hne : data <> []) by discriminate.
  assert (Hpos : (0 < length data)%nat) by (simpl; lia).
  rewrite (Read_bytes_nonempty data 10 Hne). clearbody data.
  destruct (Nat.le_gt_cases 10 (length data)) as [Hfull|Hshort].
  - assert (Hn : length (firstn 10 data) = 10%nat)
      by (rewrite length_firstn; lia).
    rewrite Hn. cbn [Nat.eqb negb].
    assert (Hcopy : Go.copy buffer (firstn 10 data) = firstn 10 data).
    { unfold Go.copy. rewrite Hbuf, Hn, firstn_firstn.
      rewrite skipn_all2 by lia. apply app_nil_r. }
    rewrite Hcopy.
    destruct (bcg729Decoder ctx (firstn 10 data)) as [ctx' stored] eqn:Ec.
    set (decodedData :=
           flat_map (int16_memory order) (Go.copy (repeat 0 80%nat) stored)).
    destruct (accepted_write written accepting w decodedData)
      as (w1 & -> & Hw1).
    destruct (IH ctx' (skipn 10 data) w1 (firstn 10 data)
                (given ++ [firstn 10 data]) Hn)
      as (r & new & Hrun & Hfed & Hall & Hcat & Hself & Hsink & Hsrc & Hres).
    { rewrite length_skipn. lia. }
    exists r, (firstn 10 data :: new).
    split; [exact Hrun|].
    split; [rewrite Hfed, <- app_assoc; reflexivity|].
    split; [constructor; assumption|].
    rewrite length_skipn in Hcat, Hres.
    split; [|split; [|split; [|split]]].
    + cbn [concat]. rewrite Hcat.
      replace (10 * (length data / 10))%nat
        with (10 + 10 * ((length data - 10) / 10))%nat by lia.
      symmetry. apply firstn_add_skipn.
    + cbn [decoder_calls]. rewrite Ec.
      destruct (decoder_calls bcg729Decoder order ctx' new) as [ctx'' bytes].
      exact Hself.
    + cbn [decoder_calls]. rewrite Ec.
      destruct (decoder_calls bcg729Decoder order ctx' new) as [ctx'' bytes].
      cbn [snd] in *. rewrite Hsink, Hw1, <- app_assoc. reflexivity.
    + exact Hsrc.
    + rewrite Hres.
      replace ((length data - 10) mod 10)%nat with (length data mod 10)%nat
        by lia.
      reflexivity.
  - assert (Hn : length (firstn 10 data) = length data)
      by (rewrite length_firstn; lia).
    rewrite Hn.
    assert (Hten : (length data =? 10)%nat = false)
      by (apply Nat.eqb_neq; lia).
    rewrite Hten. cbn [negb].
    replace (length data / 10)%nat with 0%nat by lia.
    rewrite (Nat.mod_small (length data) 10) by lia.
    assert (Hz : (length data =? 0)%nat = false)
      by (apply Nat.eqb_neq; lia).
    rewrite Hz.
    eexists. exists []. split; [reflexivity|].
    cbn [G729_native.fed G729_native.d_sink G729_native.d_result
         G729_native.d_self G729_native.source decoder_calls
         concat length fst snd].
    rewrite !app_nil_r.
    split; [reflexivity|]. split; [constructor|].
    split; [reflexivity|]. split; [reflexivity|].
    split; [reflexivity|].
    split; [apply skipn_all2; lia | reflexivity].
Qed.

End DecodeBytes.

(** X15: [Decode] reads a byte stream in 10-byte frames: with an initialised
    decoder and an accepting sink, a [bytes.Reader] over [data] gives
    [len data / 10] frames to the codec, in order and covering the bytes
    before any leftover, and writes 160 bytes for each; the call returns
    nil when the length is a multiple of 10, and otherwise the error
    [incomplete G.729 frame] naming the number of leftover bytes.  These
    frames are what the codec is called with: the context left in the
    decoder is the one that calling the codec on them in order leads to,
    the sink has received the memory of the samples those calls gave, and
    the reader is left empty. *)
Theorem G729_Decode_bytes {DCtx W : Type} `{io_Writer W}
  (bcg729Decoder : DCtx -> list Z -> DCtx * list Z) (order : byte_order)
  (written : W -> list Z) (d : G729_native.G729Decoder DCtx) (ctx : DCtx)
  (data : bytes_Reader) (w : W) (fuel : nat) :
  accepts_all written ->
  G729_native.decoder d = Some ctx ->
  (length data < 10 * fuel)%nat ->
  exists r,
    G729_native.Decode bcg729Decoder order fuel d data w = Some r /\
    Forall (fun frame => length frame = 10%nat) (G729_native.fed r) /\
    concat (G729_native.fed r) = firstn (10 * (length data / 10)) data /\
    length (written (G729_native.d_sink r)) =
      (length (written w) + 160 * (length data / 10))%nat /\
    G729_native.d_result r =
      (if (length data mod 10 =? 0)%nat then Returned None
       else Returned (Some (Errorf (String.append
              "incomplete G.729 frame: expected 10 bytes, got "
              (NilEmpty.string_of_uint
                 (Nat.to_uint (length data mod 10))))))) /\
    G729_native.d_self r =
      {| G729_native.decoder :=
           Some (fst (decoder_calls bcg729Decoder order ctx
                        (G729_native.fed r))) |} /\
    written (G729_native.d_sink r) =
      written w ++
      snd (decoder_calls bcg729Decoder order ctx (G729_native.fed r)) /\
    G729_native.source r = [].
Proof.
  intros Hacc Hdec Hfuel. unfold G729_native.Decode. rewrite Hdec.
  destruct (decode_frames_bytes bcg729Decoder order written Hacc fuel ctx
              data w (repeat 0 10%nat) [] (repeat_length _ _) Hfuel)
    as (r & new & Hrun & Hfed & Hall & Hcat & Hself & Hsink & Hsrc & Hres).
  simpl in Hfed. subst new.
  exists r. split; [exact Hrun|]. split; [exact Hall|].
  split; [exact Hcat|].
  split; [|split; [exact Hres|split; [exact Hself|split; assumption]]].
  rewrite Hsink, length_app, decoder_calls_length. f_equal. f_equal.
  assert (Hcount : length (concat (G729_native.fed r)) =
                   (10 * length (G729_native.fed r))%nat).
  { clear - Hall. induction Hall as [|f fs Hf _ IH]; [reflexivity|].
    cbn [concat length]. rewrite length_app, Hf, IH. lia. }
  rewrite Hcat, length_firstn in Hcount. lia.
Qed.

Lemma G729_Decode_bytes_witness :
  exists r : G729_native.decoding (list (list Z)) bytes_Reader Buffer,
    G729_native.Decode Samples.recording_decoder little_endian 3
      {| G729_native.decoder := Some [] |} (repeat 1 25) [] = Some r /\
    Forall (fun frame => length frame = 10%nat) (G729_native.fed r) /\
    concat (G729_native.fed r) =
      firstn (10 * (length (repeat 1 25) / 10)) (repeat 1 25) /\
    length (G729_native.d_sink r) =
      (length ([] : Buffer) + 160 * (length (repeat 1 25) / 10))%nat /\
    G729_native.d_result r =
      (if (length (repeat 1 25) mod 10 =? 0)%nat then Returned None
       else Returned (Some (Errorf (String.append
              "incomplete G.729 frame: expected 10 bytes, got "
              (NilEmpty.string_of_uint
                 (Nat.to_uint (length (repeat 1 25) mod 10))))))) /\
    G729_native.d_self r =
      {| G729_native.decoder :=
           Some (fst (decoder_calls Samples.recording_decoder little_endian
                        [] (G729_native.fed r))) |} /\
    G729_native.d_sink r =
      [] ++ snd (decoder_calls Samples.recording_decoder little_endian []
                   (G729_native.fed r)) /\
    G729_native.source r = [].
Proof.
  apply (G729_Decode_bytes Samples.recording_decoder little_endian
           (fun buf : Buffer => buf) {| G729_native.decoder := Some [] |} []
           (repeat 1 25) [] 3 Buffer_accepts_all eq_refl).
  vm_compute. lia.
Defined.

(** * The entry points *)

Lemma ReadWAVSamples_fileInfo (reader : io_Reader) (samples : list Z)
  (info : option FileInfo) :
  ReadWAVSamples reader = (samples, info, None) ->
  exists fileInfo,
    info = Some fileInfo /\ Path fileInfo = "" /\ Size fileInfo = 0 /\
    TotalSamples fileInfo = Z.of_nat (length samples) /\
    BitDepth fileInfo = 16 /\ SampleRate fileInfo = 8000 /\
    Channels fileInfo = 1.
Proof.
  intros Hrun. unfold ReadWAVSamples in Hrun.
  destruct reader as [file|]; [|discriminate Hrun].
  destruct (Format file) as [format|]; [|discriminate Hrun].
  destruct (negb (wf_AudioFormat format =? 1)) eqn:E1; [discriminate Hrun|].
  destruct (negb (wf_NumChannels format =? 1)) eqn:E2; [discriminate Hrun|].
  destruct (negb (wf_SampleRate format =? 8000)) eqn:E3; [discriminate Hrun|].
  destruct (negb (wf_BitsPerSample format =? 16)) eqn:E4;
    [discriminate Hrun|].
  destruct (proj1 (header_checks format) (conj E1 (conj E2 (conj E3 E4))))
    as (Ha & Hc & Hr & Hb).
  destruct (read_batches _ _ _) as [? [?|]]; [discriminate Hrun|].
  injection Hrun as <- <-. eexists. split; [reflexivity|].
  simpl. repeat split; assumption.
Qed.

Lemma ReadWAVSamples_nonconformant (file : File) (format : WavFormat) :
  Format file = Ok format ->
  wf_AudioFormat format <> 1 \/ wf_NumChannels format <> 1 \/
  wf_SampleRate format <> 8000 \/ wf_BitsPerSample format <> 16 ->
  ReadWAVSamples (os_File file) = ([], None, Some ErrInvalidFormat).
Proof.
  intros Hf Hbad. unfold ReadWAVSamples. rewrite Hf.
  destruct (wf_AudioFormat format =? 1) eqn:Ea; [|reflexivity]. simpl.
  destruct (wf_NumChannels format =? 1) eqn:Ec; [|reflexivity]. simpl.
  destruct (wf_SampleRate format =? 8000) eqn:Er; [|reflexivity]. simpl.
  destruct (wf_BitsPerSample format =? 16) eqn:Eb; [|reflexivity]. simpl.
  apply Z.eqb_eq in Ea, Ec, Er, Eb. intuition congruence.
Qed.

(** The registry does not hand back a nil encoder with a nil error, and
    the encoder it hands back is the one for the format asked for. *)
Lemma GetEncoder_some {Ctx} (b : build Ctx) (format : AudioFormat)
  (encoder : option (CodecEncoder Ctx)) :
  GetEncoder b format = (encoder, None) ->
  exists e, encoder = Some e /\ GetFormat e = format.
Proof.
  unfold GetEncoder.
  destruct (String.eqb_spec format FormatG729) as [->|_].
  - destruct b as [init|]; simpl.
    + unfold G729_cgo.NewG729Encoder. destruct (init 0); simpl;
        intros Hrun; [|discriminate Hrun].
      injection Hrun as <-. eexists. split; reflexivity.
    + discriminate.
  - destruct (String.eqb_spec format FormatULaw) as [->|_];
      [intros Hrun; injection Hrun as <-; eexists; split; reflexivity|].
    destruct (String.eqb_spec format FormatALaw) as [->|_];
      [intros Hrun; injection Hrun as <-; eexists; split; reflexivity|].
    destruct (String.eqb_spec format FormatSLIN) as [->|_];
      [intros Hrun; injection Hrun as <-; eexists; split; reflexivity|].
    discriminate.
Qed.

Lemma CodecEncoder_Encode_returns {Ctx W : Type} `{io_Writer W}
  (codec : Ctx -> list Z -> Ctx * list Z * Z) (e : CodecEncoder Ctx)
  (samples : list Z) (w : W) :
  exists e' w' out, CodecEncoder_Encode codec e samples w = Some (e', w', out).
Proof.
  destruct e as [| | |g|g]; simpl.
  - destruct (ULawEncoder_Encode samples w). do 3 eexists. reflexivity.
  - destruct (ALawEncoder_Encode samples w). do 3 eexists. reflexivity.
  - destruct (SLINEncoder_Encode samples w). do 3 eexists. reflexivity.
  - assert (Hret : exists r, G729_cgo.Encode codec g samples w = Some r).
    { unfold G729_cgo.Encode. destruct (G729_cgo.encoder g).
      - apply encode_frames_returns. lia.
      - eexists. reflexivity. }
    destruct Hret as [r ->]. do 3 eexists. reflexivity.
  - do 3 eexists. reflexivity.
Qed.

(** [Encode] leaves the kind of the encoder, hence its format and its
    nominal bitrate, as they were. *)
Lemma CodecEncoder_Encode_keeps {Ctx W : Type} `{io_Writer W}
  (codec : Ctx -> list Z -> Ctx * list Z * Z) (e e' : CodecEncoder Ctx)
  (samples : list Z) (w w' : W) (out : outcome) :
  CodecEncoder_Encode codec e samples w = Some (e', w', out) ->
  GetFormat e' = GetFormat e /\ GetBitrate e' = GetBitrate e.
Proof.
  destruct e as [| | |g|g]; simpl.
  - destruct (ULawEncoder_Encode samples w). intros Hrun.
    injection Hrun as <- _ _. split; reflexivity.
  - destruct (ALawEncoder_Encode samples w). intros Hrun.
    injection Hrun as <- _ _. split; reflexivity.
  - destruct (SLINEncoder_Encode samples w). intros Hrun.
    injection Hrun as <- _ _. split; reflexivity.
  - destruct (G729_cgo.Encode codec g samples w); [|discriminate].
    intros Hrun. injection Hrun as <- _ _. split; reflexivity.
  - intros Hrun. injection Hrun as <- _ _. split; reflexivity.
Qed.

(** ** Unknown formats *)

(** X16: The format check comes first in every entry point: for a format
    outside the four constants each of them returns [ErrUnsupportedFormat]
    itself, not wrapped, and leaves the operating system and the writer
    as they were: nothing is opened, created, written or printed. *)
Theorem entry_points_reject_unknown_format
  {World Handle Ctx W : Type} `{OS World Handle} `{io_Writer W}
  (b : build Ctx) (codec : Ctx -> list Z -> Ctx * list Z * Z) (since : Z)
  (t : DefaultTranscoder) (inputPath outputPath : string)
  (format : AudioFormat) (reader : io_Reader) (writer : W) (w0 : World) :
  ~ In format GetSupportedFormats ->
  Transcode b codec since t
    {| InputPath := inputPath; OutputPath := outputPath; Format_ := format |}
    w0 = Some (w0, Done (None, Some ErrUnsupportedFormat)) /\
  TranscodeFromReader b codec since t reader outputPath format w0 =
    Some (w0, Done (None, Some ErrUnsupportedFormat)) /\
  TranscodeToWriter b codec since t inputPath writer format w0 =
    Some (w0, writer, Done (None, Some ErrUnsupportedFormat)).
Proof.
  intros Hout.
  assert (Hinvalid : IsValidFormat format = false).
  { destruct (IsValidFormat format) eqn:E; [|reflexivity].
    apply IsValidFormat_supported in E. contradiction. }
  unfold Transcode, TranscodeFromReader, TranscodeToWriter. simpl Format_.
  rewrite Hinvalid. simpl. repeat split.
Qed.

Lemma entry_points_reject_unknown_format_witness :
  Transcode (@nocgo unit) Samples.toy_codec 0 Samples.quiet
    {| InputPath := "in.wav"; OutputPath := "out.mp3"; Format_ := "mp3" |}
    Samples.disk =
    Some (Samples.disk, Done (None, Some ErrUnsupportedFormat)) /\
  TranscodeFromReader (@nocgo unit) Samples.toy_codec 0 Samples.quiet
    (os_File (Samples.file_with Samples.pcm_mono_8k)) "out.mp3" "mp3"
    Samples.disk =
    Some (Samples.disk, Done (None, Some ErrUnsupportedFormat)) /\
  TranscodeToWriter (@nocgo unit) Samples.toy_codec 0 Samples.quiet
    "in.wav" ([] : Buffer) "mp3" Samples.disk =
    Some (Samples.disk, [], Done (None, Some ErrUnsupportedFormat)).
Proof.
  apply (entry_points_reject_unknown_format (@nocgo unit) Samples.toy_codec
           0 Samples.quiet "in.wav" "out.mp3" "mp3"
           (os_File (Samples.file_with Samples.pcm_mono_8k))
           ([] : Buffer) Samples.disk).
  simpl. intros [E|[E|[E|[E|[]]]]]; discriminate E.
Defined.

Lemma supported_valid (format : AudioFormat) :
  In format GetSupportedFormats -> IsValidFormat format = true.
Proof. apply IsValidFormat_supported. Qed.

(** ** Input that is not conformant *)

(** X17: [Transcode] and [TranscodeToWriter] validate before they create or
    write anything: when the input exists and opens but its header is not
    PCM, mono, 8000 Hz, 16 bit, both return [ErrInvalidFormat] wrapped
    under [invalid WAV file] and [input validation failed], so that
    [errors.Is] finds it, and the operating system and the writer are
    left as they were: no output file is created. *)
Theorem nonconformant_input_rejected
  {World Handle Ctx W : Type} `{OS World Handle} `{io_Writer W}
  (b : build Ctx) (codec : Ctx -> list Z -> Ctx * list Z * Z) (since : Z)
  (t : DefaultTranscoder) (inputPath outputPath : string)
  (format : AudioFormat) (writer : W) (w0 : World)
  (size : Z) (file : File) (header : WavFormat) :
  In format GetSupportedFormats ->
  os_Stat w0 inputPath = Ok size ->
  os_Open w0 inputPath = Ok file ->
  Format file = Ok header ->
  wf_AudioFormat header <> 1 \/ wf_NumChannels header <> 1 \/
  wf_SampleRate header <> 8000 \/ wf_BitsPerSample header <> 16 ->
  exists err,
    err = Wrapf "input validation failed"
            (Wrapf "invalid WAV file" ErrInvalidFormat) /\
    errors_Is err ErrInvalidFormat = true /\
    Transcode b codec since t
      {| InputPath := inputPath; OutputPath := outputPath;
         Format_ := format |} w0 = Some (w0, Done (None, Some err)) /\
    TranscodeToWriter b codec since t inputPath writer format w0 =
      Some (w0, writer, Done (None, Some err)).
Proof.
  intros Hin Hstat Hopen Hf Hbad.
  pose proof (supported_valid format Hin) as Hvalid.
  pose proof (ReadWAVSamples_nonconformant file header Hf Hbad) as Hread.
  eexists. split; [reflexivity|]. split; [reflexivity|].
  unfold Transcode, TranscodeToWriter, ValidateInput.
  cbn [Format_ InputPath OutputPath].
  rewrite Hvalid, Hstat, Hopen, Hread. split; reflexivity.
Qed.

Lemma nonconformant_input_rejected_witness :
  exists err,
    err = Wrapf "input validation failed"
            (Wrapf "invalid WAV file" ErrInvalidFormat) /\
    errors_Is err ErrInvalidFormat = true /\
    Transcode (@nocgo unit) Samples.toy_codec 0 Samples.quiet
      {| InputPath := "stereo.wav"; OutputPath := "out.ulaw";
         Format_ := FormatULaw |} Samples.disk =
      Some (Samples.disk, Done (None, Some err)) /\
    TranscodeToWriter (@nocgo unit) Samples.toy_codec 0 Samples.quiet
      "stereo.wav" ([] : Buffer) FormatULaw Samples.disk =
      Some (Samples.disk, [], Done (None, Some err)).
Proof.
  apply (nonconformant_input_rejected (@nocgo unit) Samples.toy_codec 0
           Samples.quiet "stereo.wav" "out.ulaw" FormatULaw ([] : Buffer)
           Samples.disk 56 (Samples.file_with Samples.stereo)
           Samples.stereo).
  - simpl. auto.
  - reflexivity.
  - reflexivity.
  - reflexivity.
  - right. left. simpl. lia.
Defined.

(** ** G.729 without the native library *)

(** X18: The three entry points meet the missing codec at different moments.
    On the build without cgo a G729 request whose input is valid fails in
    all three with the same error, the registry's error wrapped under
    [failed to get encoder]; but [Transcode] has by then created the
    output file, which it closes and leaves behind, while
    [TranscodeFromReader], which asks for the encoder before it reads or
    creates anything, and [TranscodeToWriter] leave the operating system
    and the writer as they were. *)
Theorem G729_nocgo_entry_points
  {World Handle Ctx W : Type} `{OS World Handle} `{io_Writer W}
  (codec : Ctx -> list Z -> Ctx * list Z * Z) (since : Z)
  (t : DefaultTranscoder) (inputPath outputPath : string)
  (reader : io_Reader) (writer : W) (w0 w1 : World)
  (info : option FileInfo) (outputFile : Handle) :
  ValidateInput (os_Stat w0) (os_Open w0) t inputPath = (info, None) ->
  os_Create w0 outputPath = (w1, Ok outputFile) ->
  exists err,
    err = Wrapf "failed to get encoder"
            (Wrapf "G.729 encoder not available"
               G729_nocgo.unavailable) /\
    errors_Is err ErrCodecNotAvailable = false /\
    Transcode (@nocgo Ctx) codec since t
      {| InputPath := inputPath; OutputPath := outputPath;
         Format_ := FormatG729 |} w0 =
      Some (file_Close w1 outputFile, Done (None, Some err)) /\
    TranscodeFromReader (@nocgo Ctx) codec since t reader outputPath
      FormatG729 w0 = Some (w0, Done (None, Some err)) /\
    TranscodeToWriter (@nocgo Ctx) codec since t inputPath writer
      FormatG729 w0 = Some (w0, writer, Done (None, Some err)).
Proof.
  intros Hvalidate Hcreate.
  eexists. split; [reflexivity|]. split; [reflexivity|].
  unfold Transcode, TranscodeFromReader, TranscodeToWriter. simpl.
  rewrite Hvalidate, Hcreate. repeat split.
Qed.

Lemma G729_nocgo_entry_points_witness :
  exists err,
    err = Wrapf "failed to get encoder"
            (Wrapf "G.729 encoder not available"
               G729_nocgo.unavailable) /\
    errors_Is err ErrCodecNotAvailable = false /\
    Transcode (@nocgo unit) Samples.toy_codec 0 Samples.quiet
      {| InputPath := "in.wav"; OutputPath := "out.g729";
         Format_ := FormatG729 |} Samples.disk =
      Some (file_Close
              (fst (os_Create Samples.disk "out.g729")) "out.g729",
            Done (None, Some err)) /\
    TranscodeFromReader (@nocgo unit) Samples.toy_codec 0 Samples.quiet
      (os_File (Samples.file_with Samples.pcm_mono_8k)) "out.g729"
      FormatG729 Samples.disk = Some (Samples.disk, Done (None, Some err)) /\
    TranscodeToWriter (@nocgo unit) Samples.toy_codec 0 Samples.quiet
      "in.wav" ([] : Buffer) FormatG729 Samples.disk =
      Some (Samples.disk, [], Done (None, Some err)).
Proof.
  refine (G729_nocgo_entry_points Samples.toy_codec 0 Samples.quiet
            "in.wav" "out.g729"
            (os_File (Samples.file_with Samples.pcm_mono_8k))
            ([] : Buffer) Samples.disk
            (fst (os_Create Samples.disk "out.g729"))
            (fst (ValidateInput (os_Stat Samples.disk)
                    (os_Open Samples.disk) Samples.quiet "in.wav"))
            "out.g729" _ _).
  - vm_compute. reflexivity.
  - reflexivity.
Defined.

(** ** Readers that are not files, end to end *)

(** X19: [TranscodeFromReader] cannot succeed on a reader that is not an
    [*os.File]: for every format and on either build it returns an error
    and leaves the operating system as it was, so no output file is
    created; for ULaw, ALaw and SLIN the error is the reader error of
    [ReadWAVSamples] wrapped under [failed to read WAV samples]. *)
Theorem TranscodeFromReader_needs_file
  {World Handle Ctx : Type} `{OS World Handle}
  (b : build Ctx) (codec : Ctx -> list Z -> Ctx * list Z * Z) (since : Z)
  (t : DefaultTranscoder) (type_name : string) (stream : list Z)
  (outputPath : string) (format : AudioFormat) (w0 : World) :
  exists err,
    TranscodeFromReader b codec since t (other_Reader type_name stream)
      outputPath format w0 = Some (w0, Done (None, Some err)) /\
    (In format [FormatULaw; FormatALaw; FormatSLIN] ->
     err = Wrapf "failed to read WAV samples"
             (Errorf "reader must be *os.File for youpy/go-wav")).
Proof.
  unfold TranscodeFromReader.
  destruct (IsValidFormat format) eqn:Ev; simpl.
  - destruct (GetEncoder b format) as [encoder [err|]] eqn:Eg.
    + eexists. split; [reflexivity|].
      intros [<-|[<-|[<-|[]]]]; discriminate Eg.
    + eexists. split; [reflexivity|]. intros _. reflexivity.
  - eexists. split; [reflexivity|].
    intros [<-|[<-|[<-|[]]]]; discriminate Ev.
Qed.

Lemma TranscodeFromReader_needs_file_witness :
  exists err,
    TranscodeFromReader (@nocgo unit) Samples.toy_codec 0 Samples.quiet
      (other_Reader "*bytes.Reader" [82; 73; 70; 70]) "out.alaw"
      FormatALaw Samples.disk = Some (Samples.disk, Done (None, Some err)) /\
    err = Wrapf "failed to read WAV samples"
            (Errorf "reader must be *os.File for youpy/go-wav").
Proof.
  destruct (TranscodeFromReader_needs_file (@nocgo unit) Samples.toy_codec
              0 Samples.quiet "*bytes.Reader" [82; 73; 70; 70] "out.alaw"
              FormatALaw Samples.disk) as (err & Hrun & Herr).
  exists err. split; [exact Hrun|]. apply Herr. simpl. auto.
Defined.

(** ** What a successful [Transcode] reports *)

(** X20: The [FileInfo] that [Transcode] puts in its result is the one of its
    second read of the input, which has no path and size 0; the test
    [fileInfo.Size > 0] that guards the compression ratio is therefore
    never true.  So every successful [Transcode] reports a compression
    ratio of 0 and an input size of 0, whatever the sizes of the two
    files; the other fields are the sample count, the nominal bitrate of
    the encoder of the format, the output path and format, and the time
    measured. *)
Theorem Transcode_success_report
  {World Handle Ctx : Type} `{OS World Handle}
  (b : build Ctx) (codec : Ctx -> list Z -> Ctx * list Z * Z) (since : Z)
  (t : DefaultTranscoder) (config : TranscoderConfig) (w0 w' : World)
  (result : TranscoderResult) (err : option error) :
  Transcode b codec since t config w0 = Some (w', Done (Some result, err)) ->
  err = None /\
  CompressionRatio (Stats result) = 0%Q /\
  Size (InputFile result) = 0 /\ Path (InputFile result) = "" /\
  BitDepth (InputFile result) = 16 /\ SampleRate (InputFile result) = 8000 /\
  Channels (InputFile result) = 1 /\
  FramesProcessed (Stats result) = TotalSamples (InputFile result) /\
  Path (OutputFile result) = OutputPath config /\
  Type_ (OutputFile result) = Format_ config /\
  ProcessingTimeMs (Stats result) = Z.quot since 1000000 /\
  Error_ result = None /\
  exists e,
    GetEncoder b (Format_ config) = (Some e, None) /\
    BitrateKbps (Stats result) = GetBitrate e.
Proof.
  unfold Transcode. intros Hrun.
  destruct (negb (IsValidFormat (Format_ config))); [discriminate Hrun|].
  destruct (ValidateInput _ _ _ _) as [? [?|]]; [discriminate Hrun|].
  destruct (os_Create w0 (OutputPath config)) as [w1 [outputFile|?]];
    [|discriminate Hrun].
  destruct (GetEncoder b (Format_ config)) as [encoder [?|]] eqn:Eg;
    [discriminate Hrun|].
  destruct (os_Open w1 (InputPath config)) as [inputFile|?];
    [|discriminate Hrun].
  destruct (ReadWAVSamples (os_File inputFile))
    as [[samples fileInfo] [?|]] eqn:Er; [discriminate Hrun|].
  destruct (ReadWAVSamples_fileInfo _ _ _ Er)
    as (fi & -> & Hpath & Hsize & Htotal & Hbits & Hrate & Hch).
  destruct encoder as [encoder|]; [|discriminate Hrun].
  destruct (CodecEncoder_Encode codec encoder samples (w1, outputFile))
    as [[[encoder' [w2 h]] [[?|]|]]|] eqn:Ee; try discriminate Hrun.
  destruct (os_Stat w2 (OutputPath config)) as [outputSize|?];
    [|discriminate Hrun].
  rewrite Hsize in Hrun. change (0 <? 0) with false in Hrun.
  injection Hrun as _ <- <-. cbn.
  destruct (CodecEncoder_Encode_keeps _ _ _ _ _ _ _ Ee) as [_ Hrate'].
  repeat (split; [first [reflexivity | assumption | symmetry; assumption]|]).
  exists encoder. split; [reflexivity | exact Hrate'].
Qed.

Lemma Transcode_success_report_witness :
  exists w' result,
    Transcode (@nocgo unit) Samples.toy_codec 12345678 Samples.quiet
      Samples.to_ulaw Samples.disk = Some (w', Done (Some result, None)) /\
    CompressionRatio (Stats result) = 0%Q /\
    Size (InputFile result) = 0 /\
    Size (OutputFile result) = 3 /\
    os_Stat Samples.disk "in.wav" = Ok 50 /\
    ProcessingTimeMs (Stats result) = 12.
Proof.
  destruct (Transcode (@nocgo unit) Samples.toy_codec 12345678 Samples.quiet
              Samples.to_ulaw Samples.disk)
    as [[w' [[[result|] err]|]]|] eqn:Hrun;
    try (vm_compute in Hrun; discriminate Hrun).
  destruct (Transcode_success_report _ _ _ _ _ _ _ _ _ Hrun)
    as (-> & Hratio & Hsize & _ & _ & _ & _ & _ & _ & _ & Hms & _).
  exists w', result. split; [reflexivity|].
  split; [exact Hratio|]. split; [exact Hsize|].
  vm_compute in Hrun. injection Hrun as _ <-.
  repeat split.
Defined.

(** ** Streaming to a writer *)

(** X21: [TranscodeToWriter] end to end for the three stateless formats: when
    the input validates and the writer accepts all writes, the call
    succeeds, the writer has received exactly the mu-law bytes, the A-law
    bytes or the little-endian byte pairs of the samples of the file, in
    order, and the result counts those samples; without verbose logging
    the operating system is left as it was. *)
Theorem TranscodeToWriter_streams
  {World Handle Ctx W : Type} `{OS World Handle} `{io_Writer W}
  (b : build Ctx) (codec : Ctx -> list Z -> Ctx * list Z * Z) (since : Z)
  (written : W -> list Z) (t : DefaultTranscoder) (inputPath : string)
  (writer : W) (w0 : World) (size : Z) (file : File) (samples : list Z)
  (info : option FileInfo) (format : AudioFormat) :
  accepts_all written ->
  os_Stat w0 inputPath = Ok size ->
  os_Open w0 inputPath = Ok file ->
  ReadWAVSamples (os_File file) = (samples, info, None) ->
  In format [FormatULaw; FormatALaw; FormatSLIN] ->
  exists w1 writer' result,
    TranscodeToWriter b codec since t inputPath writer format w0 =
      Some (w1, writer', Done (Some result, None)) /\
    written writer' =
      written writer ++
      (if String.eqb format FormatULaw then map pcmToULaw samples
       else if String.eqb format FormatALaw then map pcmToALaw samples
       else flat_map slin_bytes samples) /\
    FramesProcessed (Stats result) = Z.of_nat (length samples) /\
    Type_ (OutputFile result) = format /\
    (verbose t = false -> w1 = w0).
Proof.
  intros Hacc Hstat Hopen Hread Hin.
  destruct (ReadWAVSamples_fileInfo _ _ _ Hread) as (fi & -> & _).
  unfold TranscodeToWriter, ValidateInput.
  rewrite Hstat, Hopen, Hread.
  destruct Hin as [<-|[<-|[<-|[]]]]; cbn [IsValidFormat negb].
  - change (IsValidFormat FormatULaw) with true. cbn [negb].
    change (GetEncoder b FormatULaw) with (Some (@ULawEncoder Ctx), @None error).
    cbn [CodecEncoder_Encode].
    destruct (ULawEncoder_Encode_accepting written Hacc samples writer)
      as (writer' & -> & Hout).
    do 3 eexists. split; [reflexivity|]. split; [exact Hout|].
    split; [reflexivity|]. split; [reflexivity|].
    intros ->. reflexivity.
  - change (IsValidFormat FormatALaw) with true. cbn [negb].
    change (GetEncoder b FormatALaw) with (Some (@ALawEncoder Ctx), @None error).
    cbn [CodecEncoder_Encode].
    destruct (ALawEncoder_Encode_accepting written Hacc samples writer)
      as (writer' & -> & Hout).
    do 3 eexists. split; [reflexivity|]. split; [exact Hout|].
    split; [reflexivity|]. split; [reflexivity|].
    intros ->. reflexivity.
  - change (IsValidFormat FormatSLIN) with true. cbn [negb].
    change (GetEncoder b FormatSLIN) with (Some (@SLINEncoder Ctx), @None error).
    cbn [CodecEncoder_Encode].
    destruct (SLINEncoder_Encode_accepting written Hacc samples writer)
      as (writer' & -> & Hout).
    do 3 eexists. split; [reflexivity|]. split; [exact Hout|].
    split; [reflexivity|]. split; [reflexivity|].
    intros ->. reflexivity.
Qed.

Lemma TranscodeToWriter_streams_witness :
  exists w1 (writer' : Buffer) result,
    TranscodeToWriter (@nocgo unit) Samples.toy_codec 0 Samples.quiet
      "in.wav" ([] : Buffer) FormatSLIN Samples.disk =
      Some (w1, writer', Done (Some result, None)) /\
    writer' = [] ++ flat_map slin_bytes [0; 100; -100] /\
    FramesProcessed (Stats result) = Z.of_nat (length [0; 100; -100]) /\
    Type_ (OutputFile result) = FormatSLIN /\
    (verbose Samples.quiet = false -> w1 = Samples.disk).
Proof.
  refine (TranscodeToWriter_streams (@nocgo unit) Samples.toy_codec 0
            (fun buf : Buffer => buf) Samples.quiet "in.wav" []
            Samples.disk 50 (Samples.file_with Samples.pcm_mono_8k)
            [0; 100; -100]
            (snd (fst (ReadWAVSamples
                         (os_File (Samples.file_with Samples.pcm_mono_8k)))))
            FormatSLIN Buffer_accepts_all eq_refl eq_refl _ _).
  - vm_compute. reflexivity.
  - simpl. auto.
Defined.

(** ** The registry and the format check *)

(** X23: [IsValidFormat] and [GetEncoder] agree: on either build [GetEncoder]
    answers [ErrUnsupportedFormat] exactly for the formats that
    [IsValidFormat] rejects, so after the check of the entry points the
    registry can only fail for G729, and then with a wrapped error. *)
Theorem GetEncoder_unsupported_iff {Ctx : Type} (b : build Ctx)
  (format : AudioFormat) :
  (snd (GetEncoder b format) = Some ErrUnsupportedFormat <->
   IsValidFormat format = false) /\
  (forall err,
     IsValidFormat format = true ->
     snd (GetEncoder b format) = Some err ->
     format = FormatG729 /\
     exists cause, err = Wrapf "G.729 encoder not available" cause).
Proof.
  split.
  - split.
    + intros Herr. destruct (IsValidFormat format) eqn:Ev; [|reflexivity].
      exfalso. unfold IsValidFormat in Ev. unfold GetEncoder in Herr.
      destruct (String.eqb format FormatG729).
      * destruct (NewG729Encoder b) as [? [?|]]; discriminate Herr.
      * destruct (String.eqb format FormatULaw); [discriminate Herr|].
        destruct (String.eqb format FormatALaw); [discriminate Herr|].
        destruct (String.eqb format FormatSLIN); discriminate.
    + intros Hinvalid. rewrite GetEncoder_unknown; [reflexivity|].
      intros Hin. apply IsValidFormat_supported in Hin. congruence.
  - intros err Hvalid Herr. unfold GetEncoder in Herr.
    destruct (String.eqb_spec format FormatG729) as [->|Hne].
    + split; [reflexivity|].
      destruct (NewG729Encoder b) as [? [cause|]]; [|discriminate Herr].
      injection Herr as <-. exists cause. reflexivity.
    + unfold IsValidFormat in Hvalid.
      destruct (String.eqb format FormatG729) eqn:E1;
        [apply String.eqb_eq in E1; contradiction|].
      destruct (String.eqb format FormatULaw); [discriminate Herr|].
      destruct (String.eqb format FormatALaw); [discriminate Herr|].
      destruct (String.eqb format FormatSLIN); discriminate.
Qed.

Lemma GetEncoder_unsupported_iff_witness :
  FormatG729 = FormatG729 /\
  exists cause,
    Wrapf "G.729 encoder not available" G729_nocgo.unavailable =
    Wrapf "G.729 encoder not available" cause.
Proof.
  exact (proj2 (GetEncoder_unsupported_iff (@nocgo unit) FormatG729)
           (Wrapf "G.729 encoder not available" G729_nocgo.unavailable)
           eq_refl eq_refl).
Defined.

(** ** The segment search ends *)

(** X24: The loop [for temp > 0 { segment++; temp >>= 1 }] ends on every
    [int16]: within the 16 iterations given to it the test [temp > 0] has
    become false, and allowing more iterations changes nothing; the
    segment it counts is between 0 and 15 before clipping. *)
Theorem segment_search_ends (temp : Z) (extra : nat) :
  Go.is_int16 temp ->
  snd (segment_loop segment_fuel 0 temp) <= 0 /\
  segment_loop (segment_fuel + extra) 0 temp =
    segment_loop segment_fuel 0 temp /\
  0 <= fst (segment_loop segment_fuel 0 temp) <= 15.
Proof.
  intros Hr.
  pose proof (segment_loop_exits 0 temp Hr) as Hexit.
  split; [exact Hexit|].
  split; [apply segment_loop_stable; exact Hexit|].
  split; [apply segment_loop_nonneg; lia|].
  destruct (Z_lt_le_dec 0 temp) as [Hpos|Hle].
  - rewrite segment_loop_log2; try assumption.
    + assert (Z.log2 temp < 15)
        by (apply Z.log2_lt_pow2; [lia|];
            unfold Go.is_int16 in Hr; change (2 ^ 15) with 32768; lia).
      lia.
    + assert (Z.log2 temp < 15)
        by (apply Z.log2_lt_pow2; [lia|];
            unfold Go.is_int16 in Hr; change (2 ^ 15) with 32768; lia).
      unfold segment_fuel. lia.
  - rewrite segment_loop_stops by exact Hle. simpl. lia.
Qed.

Lemma segment_search_ends_witness :
  snd (segment_loop segment_fuel 0 32767) <= 0 /\
  segment_loop (segment_fuel + 4) 0 32767 =
    segment_loop segment_fuel 0 32767 /\
  0 <= fst (segment_loop segment_fuel 0 32767) <= 15.
Proof.
  apply (segment_search_ends 32767 4). unfold Go.is_int16. lia.
Defined.

Lemma G729_use_after_Close_witness :
  G729_cgo.encoder {| G729_cgo.encoder := Some tt |} = Some tt.
Proof.
  refine (proj1 (proj2 (G729_use_after_Close (W := Buffer) Samples.toy_codec
                          {| G729_cgo.encoder := Some tt |}
                          Samples.three [])) tt _).
  simpl. auto.
Defined.
